(** * Economic metrics dashboard: the series resolver, the change summary
      and the metric catalog

    A shallow embedding of [utils.py] and of the computational part of
    [app.py].  Python exceptions are an explicit error type threaded through
    a small exception monad; pandas series are index/value lists over
    binary64 floats (Rocq's primitive floats, the same format as Python's
    [float] and numpy's [float64]); the two data providers and the clock are
    a record of functions the resolver is parameterised by. *)

From Stdlib Require Import ZArith List String Bool Lia Floats Sorted.
Import ListNotations.
Local Open Scope string_scope.
Local Open Scope list_scope.
Local Open Scope Z_scope.

(** ** Python exceptions and the exception monad *)

Module Py.

(** The subclasses of [Exception] the two files can meet.  [OtherException]
    stands for any further subclass (a provider's network or authentication
    error, pandas' [InvalidIndexError], ...). *)
Inductive exn : Type :=
| TypeError
| ValueError
| AttributeError
| IndexError
| KeyError
| ZeroDivisionError
| OtherException (name : string).

Definition exn_eqb (a b : exn) : bool :=
  match a, b with
  | TypeError, TypeError => true
  | ValueError, ValueError => true
  | AttributeError, AttributeError => true
  | IndexError, IndexError => true
  | KeyError, KeyError => true
  | ZeroDivisionError, ZeroDivisionError => true
  | OtherException n, OtherException m => String.eqb n m
  | _, _ => false
  end.

(** A computation either raises ([inl]) or returns a value ([inr]). *)
Definition result (A : Type) : Type := (exn + A)%type.

Definition ret {A} (a : A) : result A := inr a.
Definition raise {A} (e : exn) : result A := inl e.

Definition bind {A B} (c : result A) (k : A -> result B) : result B :=
  match c with
  | inl e => inl e
  | inr a => k a
  end.

(** [try: body except Exception: handler] *)
Definition try_except {A} (body : result A) (handler : exn -> result A)
  : result A :=
  match body with
  | inl e => handler e
  | inr a => inr a
  end.

(** [try: body except (E1, ..., En): handler]: an exception outside the
    listed classes is not caught. *)
Definition try_except_only {A} (classes : list exn) (body : result A)
    (handler : exn -> result A) : result A :=
  match body with
  | inl e => if existsb (exn_eqb e) classes then handler e else inl e
  | inr a => inr a
  end.

End Py.

Import Py.

Declare Scope py_scope.
Delimit Scope py_scope with py.
Notation "x <- c ;; k" := (bind c (fun x => k))
  (at level 61, c at next level, right associativity) : py_scope.
Local Open Scope py_scope.

(** ** Floating point values *)

(** [numpy.nan] *)
Definition NaN : float := PrimFloat.nan.

(** [pd.isna] / [numpy.isnan] on a float *)
Definition isna (x : float) : bool := PrimFloat.is_nan x.

(** ** Time series *)

(** A timestamp is pandas' count of nanoseconds since the epoch. *)
Definition Timestamp : Type := Z.

(** One calendar day, the step of the ['D'] frequency. *)
Definition DAY : Z := 86400000000000.

(** A float64 series with a datetime index: the (label, value) pairs in
    positional order. *)
Definition TimeSeries : Type := list (Timestamp * float).

Definition index (s : TimeSeries) : list Timestamp := map fst s.
Definition values (s : TimeSeries) : list float := map snd s.

(** [len(s)] *)
Definition len (s : TimeSeries) : Z := Z.of_nat (List.length s).

(** [s.iloc[start:]]: a negative [start] counts from the end, and a start
    outside the series is clipped, as Python slices do. *)
Definition iloc_from (start : Z) (s : TimeSeries) : TimeSeries :=
  let n := len s in
  let k := if start <? 0 then Z.max 0 (n + start) else Z.min start n in
  skipn (Z.to_nat k) s.

(** [s.fillna(method='ffill')]: every NaN takes the last value before it
    that is not NaN; leading NaNs stay. *)
Fixpoint ffill_from (last : option float) (s : TimeSeries) : TimeSeries :=
  match s with
  | [] => []
  | (t, v) :: r =>
      if isna v
      then (t, match last with Some x => x | None => v end) :: ffill_from last r
      else (t, v) :: ffill_from (Some v) r
  end.

Definition fillna_ffill (s : TimeSeries) : TimeSeries := ffill_from None s.

(** Label lookup, [s.get(t)]. *)
Fixpoint lookup (t : Timestamp) (s : TimeSeries) : option float :=
  match s with
  | [] => None
  | (u, v) :: r => if t =? u then Some v else lookup t r
  end.

(** The union of two indexes, sorted and without repetition, which is how
    pandas aligns two series with different datetime indexes. *)
Fixpoint insert_label (t : Timestamp) (l : list Timestamp) : list Timestamp :=
  match l with
  | [] => [t]
  | u :: r =>
      if t <? u then t :: l
      else if t =? u then l
      else u :: insert_label t r
  end.

Definition union_index (a b : list Timestamp) : list Timestamp :=
  fold_right insert_label [] (a ++ b).

(** A binary operator on two series: the operands are aligned on the union
    of their labels, and a label missing on either side gives NaN. *)
Definition align_binop (op : float -> float -> float) (a b : TimeSeries)
  : TimeSeries :=
  map (fun t =>
         (t, match lookup t a, lookup t b with
             | Some x, Some y => op x y
             | _, _ => NaN
             end))
      (union_index (index a) (index b)).

(** [a - b] and [a.div(b)] on series *)
Definition series_sub : TimeSeries -> TimeSeries -> TimeSeries :=
  align_binop PrimFloat.sub.
Definition series_div : TimeSeries -> TimeSeries -> TimeSeries :=
  align_binop PrimFloat.div.

(** [s * c] *)
Definition series_scale (c : float) (s : TimeSeries) : TimeSeries :=
  map (fun p => (fst p, PrimFloat.mul (snd p) c)) s.

(** An index whose labels strictly increase. *)
Fixpoint increasing_from (t : Timestamp) (l : list Timestamp) : bool :=
  match l with
  | [] => true
  | u :: r => (t <? u) && increasing_from u r
  end.

Definition increasing (l : list Timestamp) : bool :=
  match l with
  | [] => true
  | t :: r => increasing_from t r
  end.

(** [pd.date_range(start, stop, freq='D')]: start, start + 1 day, ... up to
    the last one not after [stop]. *)
Definition date_range (start stop : Timestamp) : list Timestamp :=
  map (fun k => start + Z.of_nat k * DAY)
      (seq 0 (Z.to_nat ((stop - start) / DAY + 1))).

(** The value carried by the last label not after [g] (the ['ffill'] rule of
    [reindex]); [dflt] when there is none.  The index is increasing. *)
Fixpoint pad_lookup (g : Timestamp) (dflt : float) (s : TimeSeries) : float :=
  match s with
  | [] => dflt
  | (t, v) :: r => if t <=? g then pad_lookup g v r else dflt
  end.

Definition reindex_ffill (grid : list Timestamp) (s : TimeSeries) : TimeSeries :=
  map (fun g => (g, pad_lookup g NaN s)) grid.

(** [s.asfreq('D', method='ffill')].  pandas returns an empty series for an
    empty one; otherwise it reindexes on the daily range from [index.min()]
    to [index.max()], each day taking the value of the last label not after
    it.  Reindexing with a fill method rejects an index with repeated or
    unordered labels ([ValueError]); for an increasing index the minimum and
    the maximum are the first and the last label.  (An index in decreasing
    order, which no provider returns, is rejected here as well; the
    properties of the resampled series below are stated for increasing
    indexes.) *)
Definition asfreq_D_ffill (s : TimeSeries) : result TimeSeries :=
  match s with
  | [] => ret []
  | (t0, _) :: _ =>
      if increasing (index s)
      then ret (reindex_ffill (date_range t0 (last (index s) t0)) s)
      else raise ValueError
  end.

(** [s.shift(periods)]: the values move down by [periods] positions, the
    index stays, the first [periods] positions become NaN. *)
Definition shift (periods : nat) (vs : list float) : list float :=
  firstn (List.length vs) (repeat NaN periods ++ vs).

(** [s.pct_change(periods)]: with the default [fill_method='pad'], NaNs are
    forward-filled first, then [s / s.shift(periods) - 1]. *)
Definition pct_change (periods : nat) (s : TimeSeries) : TimeSeries :=
  let p := fillna_ffill s in
  combine (index p)
          (map (fun xy => PrimFloat.sub (PrimFloat.div (fst xy) (snd xy)) 1%float)
               (combine (values p) (shift periods (values p)))).

(** ** The series resolver ([utils.py]) *)

(** What the resolver consumes from outside: the clock and the two data
    providers.  A provider call either raises or returns a float64 series
    ([yf_download_close] is [yf.download(...)['Close']]). *)
Record World : Type := {
  now : Timestamp;
  fred_get_series : string -> Timestamp -> Timestamp -> result TimeSeries;
  yf_download_close : string -> Timestamp -> Timestamp -> result TimeSeries
}.

(** [timedelta(days=n)] *)
Definition timedelta_days (n : Z) : Z := n * DAY.

(** [s.astype(float)] on a series that already holds floats. *)
Definition astype_float (s : TimeSeries) : TimeSeries := s.

(** The messages printed by the handlers are not part of the model. *)

Definition calculate_yoy_growth (data : TimeSeries)
  : result (option TimeSeries) :=
  try_except
    (daily_data <- asfreq_D_ffill data ;;
     let yoy_growth := series_scale 100%float (pct_change 365 daily_data) in
     ret (Some yoy_growth))
    (fun _ => ret None).

Section Resolver.

Variable W : World.

Definition get_fred_data (series_id : string) (days : Z)
  : result (option TimeSeries) :=
  try_except
    (let end_date := now W in
     let start_date := end_date - timedelta_days (days + 365) in
     data <- fred_get_series W series_id start_date end_date ;;
     ret (Some (fillna_ffill (astype_float data))))
    (fun _ => ret None).

Definition get_ratio_data (numerator_ticker denominator_ticker : string)
    (days : Z) : result (option TimeSeries) :=
  try_except
    (let end_date := now W in
     let start_date := end_date - timedelta_days (days + 365) in
     numerator <- yf_download_close W numerator_ticker start_date end_date ;;
     denominator <- yf_download_close W denominator_ticker start_date end_date ;;
     let ratio := series_div numerator denominator in
     ret (Some (fillna_ffill (astype_float ratio))))
    (fun _ => ret None).

Definition get_market_data (ticker : string) (days : Z)
  : result (option TimeSeries) :=
  try_except
    (let end_date := now W in
     let start_date := end_date - timedelta_days (days + 365) in
     data <- yf_download_close W ticker start_date end_date ;;
     ret (Some (fillna_ffill (astype_float data))))
    (fun _ => ret None).

(** The [if]/[elif] chain of [get_real_data]: the value of [data] when the
    chain is left. *)
Definition dispatch (metric_name : string) (days : Z)
  : result (option TimeSeries) :=
  if String.eqb metric_name "GDP Growth Rate" then get_fred_data "GDPC1" days
  else if String.eqb metric_name "Non-Farm Payroll" then get_fred_data "PAYEMS" days
  else if String.eqb metric_name "Employment Data" then get_fred_data "ICSA" days
  else if String.eqb metric_name "Personal Finance" then get_fred_data "PSAVERT" days
  else if String.eqb metric_name "Housing Sales" then get_fred_data "HSN1F" days
  else if String.eqb metric_name "Auto Sales" then get_fred_data "TOTALSA" days
  else if String.eqb metric_name "Retail Sales" then get_fred_data "RSXFS" days
  else if String.eqb metric_name "Manufacturing PMI" then get_fred_data "NAPM" days
  else if String.eqb metric_name "Services PMI" then get_fred_data "NMFCI" days
  else if String.eqb metric_name "Housing Supply" then get_fred_data "PERMIT" days
  else if String.eqb metric_name "Manufacturing Orders" then get_fred_data "DGORDER" days
  else if String.eqb metric_name "Weekly Economic Index (WEI)" then get_fred_data "WEI" days
  else if String.eqb metric_name "Copper/Gold Ratio" then get_ratio_data "HG=F" "GC=F" days
  else if String.eqb metric_name "Oil/Gold Ratio" then get_ratio_data "CL=F" "GC=F" days
  else if String.eqb metric_name "Key Interest Rates" then get_fred_data "DFF" days
  else if String.eqb metric_name "Credit Spread" then
    baa <- get_fred_data "BAA" days ;;
    treasury <- get_fred_data "DGS10" days ;;
    match baa, treasury with
    | Some baa, Some treasury =>
        ret (Some (fillna_ffill (series_sub baa treasury)))
    | _, _ => ret None
    end
  else if String.eqb metric_name "VIX Index" then get_market_data "^VIX" days
  else get_market_data "^GSPC" days.

(** The trimming of one series: [if len(s) > days: s = s.iloc[-days:]]. *)
Definition trim (days : Z) (s : TimeSeries) : TimeSeries :=
  if len s >? days then iloc_from (- days) s else s.

(** The tail of [get_real_data], from [if data is not None] on. *)
Definition post_process (data : option TimeSeries) (days : Z)
  : result (option TimeSeries * option TimeSeries) :=
  match data with
  | Some data =>
      yoy_growth <- calculate_yoy_growth data ;;
      let data := trim days data in
      let yoy_growth :=
        match yoy_growth with
        | Some yoy_growth => Some (trim days yoy_growth)
        | None => None
        end in
      ret (Some data, yoy_growth)
  | None => ret (None, None)
  end.

Definition get_real_data (metric_name : string) (days : Z)
  : result (option TimeSeries * option TimeSeries) :=
  try_except
    (data <- dispatch metric_name days ;;
     post_process data days)
    (fun _ => ret (None, None)).

End Resolver.

(** ** The metric catalog ([get_categories], [METRIC_DEFINITIONS]) *)

(** A [dict] literal with string keys, in insertion order. *)
Definition dict (V : Type) : Type := list (string * V).

(** [d[k]]: the value under [k], or [KeyError]. *)
Fixpoint getitem {V} (d : dict V) (k : string) : result V :=
  match d with
  | [] => raise KeyError
  | (k', v) :: r => if String.eqb k k' then ret v else getitem r k
  end.

Definition get_categories : dict (list string) :=
  [ ("Consumption",
      [ "GDP Growth Rate";
        "Non-Farm Payroll";
        "Employment Data";
        "Personal Finance";
        "Housing Sales";
        "Auto Sales";
        "Retail Sales" ]);
    ("Supply",
      [ "Manufacturing PMI";
        "Services PMI";
        "Housing Supply";
        "Manufacturing Orders";
        "Weekly Economic Index (WEI)";
        "Copper/Gold Ratio";
        "Oil/Gold Ratio" ]);
    ("Interest Rate",
      [ "Key Interest Rates";
        "Credit Spread";
        "VIX Index" ]);
    ("Market",
      [ "AAII Investor Sentiment Survey";
        "NAAIM Manager Sentiment";
        "Put/Call Ratio";
        "CFTC Commitments of Traders";
        "Market Breadth";
        "Sector Relative Strength" ]) ].

Definition METRIC_DEFINITIONS : dict string :=
  [ ("GDP Growth Rate", "Real Gross Domestic Product (FRED: GDPC1) - Inflation-adjusted measure of the total value of goods and services produced in the US.");
    ("Non-Farm Payroll", "Total Nonfarm Payroll (FRED: PAYEMS) - Number of U.S. workers in the economy excluding proprietors, private household employees, and farm employees.");
    ("Employment Data", "Initial Unemployment Claims (FRED: ICSA) - Number of new jobless claims filed by individuals seeking unemployment benefits.");
    ("Personal Finance", "Personal Savings Rate (FRED: PSAVERT) - Percentage of disposable personal income saved by individuals.");
    ("Housing Sales", "New Home Sales (FRED: HSN1F) - Number of new single-family houses sold and for sale.");
    ("Auto Sales", "Total Vehicle Sales (FRED: TOTALSA) - Total number of light weight vehicles sold.");
    ("Retail Sales", "Retail Sales (FRED: RSXFS) - Total sales for retail and food services.");
    ("Manufacturing PMI", "ISM Manufacturing PMI (FRED: NAPM) - Index based on surveys of manufacturing businesses, values over 50 indicate expansion.");
    ("Services PMI", "ISM Services PMI (FRED: NMFCI) - Index based on surveys of service sector businesses, values over 50 indicate expansion.");
    ("Housing Supply", "Building Permits (FRED: PERMIT) - Number of new housing units authorized by building permits.");
    ("Manufacturing Orders", "Durable Goods Orders (FRED: DGORDER) - New orders for manufactured durable goods.");
    ("Weekly Economic Index (WEI)", "NY Fed Weekly Economic Index (FRED: WEI) - An index of real economic activity using timely high-frequency data.");
    ("Copper/Gold Ratio", "Ratio between Copper and Gold futures prices - A measure of economic health and inflation expectations.");
    ("Oil/Gold Ratio", "Ratio between Crude Oil and Gold futures prices - An indicator of economic activity and inflation.");
    ("Key Interest Rates", "Federal Funds Rate (FRED: DFF) - The interest rate at which banks lend money to each other overnight.");
    ("Credit Spread", "BAA Corporate Bond Yield minus 10-Year Treasury Yield - Measures market risk perception.");
    ("VIX Index", "CBOE Volatility Index (^VIX) - Measures market's expectation of 30-day volatility.");
    ("AAII Investor Sentiment Survey", "S&P 500 as proxy - Measures individual investor sentiment (bullish vs bearish).");
    ("NAAIM Manager Sentiment", "S&P 500 as proxy - Reflects professional money managers' current equity exposure.");
    ("Put/Call Ratio", "S&P 500 as proxy - Ratio of put options to call options, indicating market sentiment.");
    ("CFTC Commitments of Traders", "S&P 500 as proxy - Shows positions of large institutional traders.");
    ("Market Breadth", "S&P 500 as proxy - Percentage of stocks above their moving averages.");
    ("Sector Relative Strength", "S&P 500 as proxy - Relative performance of different market sectors.") ].

(** ** The change summary ([calculate_change] of [app.py]) *)

(** The Python objects [calculate_change] can be handed, and the objects a
    series of dtype [object] can hold. *)
#[local] Unset Elimination Schemes.
Inductive pyval : Type :=
| PyFloat (f : float)
| PyNone
| PyStr (s : string)
| PyList (items : list pyval)
| PySeries (cells : list pyval)
| PyDataFrame (rows : list (list pyval)).
#[local] Set Elimination Schemes.

(** [isinstance(x, pd.Series)] *)
Definition isinstance_Series (x : pyval) : bool :=
  match x with
  | PySeries _ => true
  | _ => false
  end.

(** [isinstance(x, (pd.Series, pd.DataFrame))] *)
Definition isinstance_Series_or_DataFrame (x : pyval) : bool :=
  match x with
  | PySeries _ | PyDataFrame _ => true
  | _ => false
  end.

(** [x.iloc[0]]: the first cell of a series, the first row of a frame (as a
    series); [IndexError] when there is none, [AttributeError] on an object
    without [iloc]. *)
Definition iloc_first (x : pyval) : result pyval :=
  match x with
  | PySeries [] => raise IndexError
  | PySeries (c :: _) => ret c
  | PyDataFrame [] => raise IndexError
  | PyDataFrame (r :: _) => ret (PySeries r)
  | _ => raise AttributeError
  end.

(** [x.iloc[-1]] *)
Definition iloc_last (x : pyval) : result pyval :=
  match x with
  | PySeries [] => raise IndexError
  | PySeries (c :: r) => ret (last r c)
  | PyDataFrame [] => raise IndexError
  | PyDataFrame (r :: rs) => ret (PySeries (last rs r))
  | _ => raise AttributeError
  end.

(** Python's [a / b] on floats. *)
Definition py_truediv (a b : float) : result float :=
  if PrimFloat.eqb b 0%float then raise ZeroDivisionError
  else ret (PrimFloat.div a b).

(** The view of a resolver series as the dashboard passes it on. *)
Definition to_pyval (s : TimeSeries) : pyval :=
  PySeries (map PyFloat (values s)).

Section ChangeSummary.

(** Python's parser of float literals, [float(s)] on a string: [None] where
    it raises [ValueError]. *)
Variable float_of_str : string -> option float.

(** [float(x)] *)
Fixpoint py_float (x : pyval) : result float :=
  match x with
  | PyFloat f => ret f
  | PyNone => raise TypeError
  | PyStr s =>
      match float_of_str s with
      | Some f => ret f
      | None => raise ValueError
      end
  | PyList _ => raise TypeError
  | PySeries [c] => py_float c
  | PySeries _ => raise TypeError
  | PyDataFrame _ => raise TypeError
  end.

Definition calculate_change (data : pyval) : result (option float) :=
  try_except_only [TypeError; ValueError; AttributeError; IndexError]
    (if isinstance_Series data then
       first_value <- iloc_first data ;;
       last_value <- iloc_last data ;;
       first_value <- (if isinstance_Series_or_DataFrame first_value
                       then iloc_first first_value else ret first_value) ;;
       last_value <- (if isinstance_Series_or_DataFrame last_value
                      then iloc_first last_value else ret last_value) ;;
       first_value <- py_float first_value ;;
       last_value <- py_float last_value ;;
       if isna first_value || isna last_value then ret None
       else
         q <- py_truediv (PrimFloat.sub last_value first_value) first_value ;;
         ret (Some (PrimFloat.mul q 100%float))
     else ret None)
    (fun _ => ret None).

End ChangeSummary.

(** ** Worlds used in the examples *)

(** A provider that is down: every call raises. *)
Definition provider_down (_ : string) (_ _ : Timestamp) : result TimeSeries :=
  raise (OtherException "ConnectionError").

(** [n] consecutive days from [t0], all with the value [v]. *)
Definition daily_constant (t0 : Timestamp) (n : nat) (v : float) : TimeSeries :=
  map (fun k => (t0 + Z.of_nat k * DAY, v)) (seq 0 n).

(** Midnight of 2024-01-01 and noon of 2025-06-01, in nanoseconds. *)
Definition t_2024 : Timestamp := 19723 * DAY.
Definition t_now : Timestamp := 20240 * DAY + DAY / 2.

(** Nothing can be fetched. *)
Definition world_down : World :=
  {| now := t_now;
     fred_get_series := provider_down;
     yf_download_close := provider_down |}.

(** The macro provider answers any series with a daily constant 2.0 over
    376 days; the price provider is down. *)
Definition world_daily : World :=
  {| now := t_now;
     fred_get_series := fun _ _ _ => ret (daily_constant t_2024 376 2%float);
     yf_download_close := provider_down |}.

(** The macro provider answers any series with a daily constant 2.0 over
    two years. *)
Definition world_two_years : World :=
  {| now := t_now;
     fred_get_series := fun _ _ _ => ret (daily_constant t_2024 731 2%float);
     yf_download_close := provider_down |}.

(** The macro provider answers with two observations 400 days apart. *)
Definition world_sparse : World :=
  {| now := t_now;
     fred_get_series := fun _ _ _ =>
       ret [ (t_2024, 2%float); (t_2024 + 400 * DAY, 2%float) ];
     yf_download_close := provider_down |}.

(** Monthly BAA yields and daily treasury yields: the treasury series has a
    label the BAA series lacks, and the other way round. *)
Definition world_yields : World :=
  {| now := t_now;
     fred_get_series := fun id _ _ =>
       if String.eqb id "BAA"
       then ret [ (t_2024, 6%float); (t_2024 + 31 * DAY, 7%float) ]
       else ret [ (t_2024, 4%float); (t_2024 + DAY, 5%float) ];
     yf_download_close := provider_down |}.

(** The BAA series can be fetched, the treasury series cannot. *)
Definition world_no_treasury : World :=
  {| now := t_now;
     fred_get_series := fun id _ _ =>
       if String.eqb id "DGS10"
       then raise (OtherException "HTTPError")
       else ret [ (t_2024, 6%float); (t_2024 + 31 * DAY, 7%float) ];
     yf_download_close := provider_down |}.

(** The price provider answers any ticker with five daily closes. *)
Definition world_prices : World :=
  {| now := t_now;
     fred_get_series := provider_down;
     yf_download_close := fun _ _ _ => ret (daily_constant t_2024 5 3%float) |}.

(** The names the [if]/[elif] chain of [get_real_data] tests for. *)
Definition special_cased : list string :=
  [ "GDP Growth Rate"; "Non-Farm Payroll"; "Employment Data";
    "Personal Finance"; "Housing Sales"; "Auto Sales"; "Retail Sales";
    "Manufacturing PMI"; "Services PMI"; "Housing Supply";
    "Manufacturing Orders"; "Weekly Economic Index (WEI)";
    "Copper/Gold Ratio"; "Oil/Gold Ratio"; "Key Interest Rates";
    "Credit Spread"; "VIX Index" ].

(** The growth series [calculate_yoy_growth] computes from [data], or nothing
    when the resampling raises. *)
Definition yoy_or_none (data : TimeSeries) : option TimeSeries :=
  match asfreq_D_ffill data with
  | inr daily_data => Some (series_scale 100%float (pct_change 365 daily_data))
  | inl _ => None
  end.

(** The start of the period a helper asks a provider for. *)
Definition start_date (W : World) (days : Z) : Timestamp :=
  now W - timedelta_days (days + 365).

(** The last [n] points of a series. *)
Definition last_points (n : nat) (s : TimeSeries) : TimeSeries :=
  skipn (List.length s - n) s.

(** ** The growth series as the specification describes it *)

(** The last known value at or before [g]: the value of the last point of
    [s] whose label is not after [g], NaN when there is none. *)
Definition last_known (g : Timestamp) (s : TimeSeries) : float :=
  last (values (filter (fun p : Timestamp * float => fst p <=? g) s)) NaN.

(** The level series on a continuous daily calendar grid, from its first to
    its last label, each day carrying the last known value. *)
Definition daily_grid (s : TimeSeries) : TimeSeries :=
  match s with
  | [] => []
  | (t0, _) :: _ =>
      map (fun g => (g, last_known g s)) (date_range t0 (last (index s) t0))
  end.

(** [(value[t] / value[t - 365 days] - 1) * 100] at every label [t] of the
    grid; NaN (undefined) where the grid has no label 365 days before. *)
Definition yoy_formula (grid : TimeSeries) : TimeSeries :=
  map (fun p : Timestamp * float =>
         (fst p,
          match lookup (fst p - 365 * DAY) grid with
          | Some y =>
              PrimFloat.mul
                (PrimFloat.sub (PrimFloat.div (snd p) y) 1%float) 100%float
          | None => NaN
          end))
      grid.

(** No growth label is earlier than the first level label plus 365 days,
    less one day for rounding to the grid. *)
Definition growth_after_first_year (level growth : TimeSeries) : Prop :=
  forall t0 t v,
    hd_error (index level) = Some t0 ->
    In (t, v) growth ->
    t0 + 365 * DAY - DAY <= t.

(** A list of values without NaN, and one whose NaNs all come first: the
    shape forward-filling leaves. *)
Definition no_nan (vs : list float) : bool :=
  forallb (fun v => negb (isna v)) vs.

Fixpoint nan_prefix_only (vs : list float) : bool :=
  match vs with
  | [] => true
  | v :: r => if isna v then nan_prefix_only r else no_nan r
  end.

(** ** Start of [utils.py]: the FRED credential *)

(** Python's truth value of an optional string: [None] and the empty string
    are false. *)
Definition py_truthy_str (s : option string) : bool :=
  match s with
  | Some s => negb (String.eqb s "")
  | None => false
  end.

(** The module body of [utils.py] down to the client: [getenv] is
    [os.getenv('FRED_API_KEY')] after [load_dotenv()], [secrets_get] is the
    call [st.secrets.get("FRED_API_KEY")], which [or] only evaluates when the
    environment gives nothing and which can raise (no secrets file).  The
    result is the key the [Fred] client is built with. *)
Definition load_fred_api_key (getenv : option string)
    (secrets_get : result (option string)) : result string :=
  fred_api_key <- (if py_truthy_str getenv then ret getenv else secrets_get) ;;
  if negb (py_truthy_str fred_api_key) then raise ValueError
  else match fred_api_key with
       | Some key => ret key
       | None => raise ValueError
       end.

(** ** The sidebar of [app.py] *)

(** The options of the time-range radio button, and [days_map]. *)
Definition time_range_options : list string :=
  [ "1 Year"; "2 Years"; "5 Years" ].

Definition days_map : dict Z :=
  [ ("1 Year", 365); ("2 Years", 730); ("5 Years", 1825) ].

(** ** Further worlds and tables used in the examples *)

(** The macro provider answers with a series without points. *)
Definition world_empty : World :=
  {| now := t_now;
     fred_get_series := fun _ _ _ => ret [];
     yf_download_close := provider_down |}.

(** Copper closes on three days, gold on the first and the third and on a
    fourth. *)
Definition world_futures : World :=
  {| now := t_now;
     fred_get_series := provider_down;
     yf_download_close := fun ticker _ _ =>
       if String.eqb ticker "GC=F"
       then ret [ (t_2024, 2%float); (t_2024 + 2 * DAY, 4%float);
                  (t_2024 + 3 * DAY, 5%float) ]
       else ret [ (t_2024, 8%float); (t_2024 + DAY, 9%float);
                  (t_2024 + 2 * DAY, 10%float) ] |}.

(** The metrics [get_real_data] fetches from FRED, each with the series
    identifier it asks for. *)
Definition fred_metrics : list (string * string) :=
  [ ("GDP Growth Rate", "GDPC1"); ("Non-Farm Payroll", "PAYEMS");
    ("Employment Data", "ICSA"); ("Personal Finance", "PSAVERT");
    ("Housing Sales", "HSN1F"); ("Auto Sales", "TOTALSA");
    ("Retail Sales", "RSXFS"); ("Manufacturing PMI", "NAPM");
    ("Services PMI", "NMFCI"); ("Housing Supply", "PERMIT");
    ("Manufacturing Orders", "DGORDER");
    ("Weekly Economic Index (WEI)", "WEI"); ("Key Interest Rates", "DFF") ].

(** [needle in text] on strings. *)
Definition contains (needle text : string) : bool :=
  match String.index 0 needle text with
  | Some _ => true
  | None => false
  end.

(** ** The page of [app.py] *)

(** A plotly trace and figure, with the data [create_dual_axis_plot] puts
    in; its fixed styling (height, margins, legend, line colours) is left
    out. *)
Record Trace : Type := {
  trace_x : list Timestamp;
  trace_y : list float;
  trace_name : string;
  trace_secondary_y : bool
}.

Record Figure : Type := {
  fig_traces : list Trace;
  fig_yaxis_title : string;
  fig_yaxis2_title : string
}.

Definition create_dual_axis_plot (data : TimeSeries)
    (yoy_data : option TimeSeries) (metric : string) : Figure :=
  let level_trace :=
    {| trace_x := index data; trace_y := values data;
       trace_name := metric; trace_secondary_y := false |} in
  let traces :=
    match yoy_data with
    | Some yoy_data =>
        [ level_trace;
          {| trace_x := index yoy_data; trace_y := values yoy_data;
             trace_name := "YoY Growth %"; trace_secondary_y := true |} ]
    | None => [ level_trace ]
    end in
  {| fig_traces := traces;
     fig_yaxis_title := metric;
     fig_yaxis2_title := "YoY Growth %" |}.

(** What one call of the resolver returns. *)
Definition RetrievalResult : Type :=
  (option TimeSeries * option TimeSeries)%type.

(** The store behind [@st.cache_data(ttl=3600)]: per argument pair the value
    the function returned and when.  An entry is served while it is younger
    than the time to live; a call that raises stores nothing;
    [st.cache_data.clear()] empties the store. *)
Record CacheEntry : Type := {
  stored_at : Timestamp;
  cached_value : RetrievalResult
}.

Definition Cache : Type := list ((string * Z) * CacheEntry).

Definition TTL : Z := 3600 * 1000000000.

Definition key_eqb (a b : string * Z) : bool :=
  String.eqb (fst a) (fst b) && (snd a =? snd b).

Fixpoint cache_get (k : string * Z) (c : Cache) : option CacheEntry :=
  match c with
  | [] => None
  | (k', e) :: r => if key_eqb k k' then Some e else cache_get k r
  end.

Definition cache_put (k : string * Z) (e : CacheEntry) (c : Cache) : Cache :=
  (k, e) :: filter (fun p => negb (key_eqb k (fst p))) c.

(** [fetch_data], the cached [get_real_data]. *)
Definition fetch_data (W : World) (c : Cache) (metric_name : string)
    (days : Z) : result RetrievalResult * Cache :=
  let call :=
    match get_real_data W metric_name days with
    | inr v =>
        (ret v,
         cache_put (metric_name, days)
           {| stored_at := now W; cached_value := v |} c)
    | inl e => (raise e, c)
    end in
  match cache_get (metric_name, days) c with
  | Some e => if now W <? stored_at e + TTL then (ret (cached_value e), c)
              else call
  | None => call
  end.

(** What the script has put on the page: the tab bar, and inside a tab the
    header and, per column, sub-headers, texts, charts and error boxes.
    (Column containers and spinners show nothing of their own.) *)
Inductive widget : Type :=
| Tabs (names : list string)
| Header (tab : string) (text : string)
| Subheader (tab : string) (col : nat) (text : string)
| Markdown (tab : string) (col : nat) (text : string)
| PlotlyChart (tab : string) (col : nat) (fig : Figure)
| ErrorBox (tab : string) (col : nat) (text : string).

(** A run of the script works on the cache, which outlives the run, and on
    the page so far; an exception ends the run and leaves both as they
    are. *)
Record Session : Type := {
  cache : Cache;
  page : list widget
}.

Definition UI (A : Type) : Type := Session -> result A * Session.

Definition ui_ret {A} (a : A) : UI A := fun s => (ret a, s).

Definition ui_bind {A B} (c : UI A) (k : A -> UI B) : UI B :=
  fun s =>
    match c s with
    | (inl e, s') => (inl e, s')
    | (inr a, s') => k a s'
    end.

Definition lift {A} (r : result A) : UI A := fun s => (r, s).

Definition emit (w : widget) : UI unit :=
  fun s => (ret tt, {| cache := cache s; page := page s ++ [w] |}).

Definition clear_cache : UI unit :=
  fun s => (ret tt, {| cache := []; page := page s |}).

Notation "x <~ c ;; k" := (ui_bind c (fun x => k))
  (at level 61, c at next level, right associativity) : py_scope.

(** [for a in l: body(a)] *)
Fixpoint for_each {A} (l : list A) (body : A -> UI unit) : UI unit :=
  match l with
  | [] => ui_ret tt
  | a :: r => _ <~ body a ;; for_each r body
  end.

(** [range(0, stop, 2)] *)
Definition range_step2 (stop : nat) : list nat :=
  map (fun k => (2 * k)%nat) (seq 0 (Nat.div2 (stop + 1))).

(** [l[i]] on a list, for an index that is not negative. *)
Definition list_getitem {A} (l : list A) (i : nat) : result A :=
  match nth_error l i with
  | Some a => ret a
  | None => raise IndexError
  end.

(** [data.empty] *)
Definition series_empty (s : TimeSeries) : bool :=
  match s with
  | [] => true
  | _ :: _ => false
  end.

Section Page.

Variable W : World.

(** [float(s)] on strings, and the format [f"{x:.2f}"] of a float. *)
Variable float_of_str : string -> option float.
Variable format_2f : float -> string.

Definition fetch (metric_name : string) (days : Z) : UI RetrievalResult :=
  fun s =>
    let (r, c) := fetch_data W (cache s) metric_name days in
    (r, {| cache := c; page := page s |}).

Definition change_label (pct_change : float) : string :=
  let color := if PrimFloat.leb 0%float pct_change then "green" else "red" in
  "**Change:** <span style='color:" ++ color ++ "'>"
  ++ format_2f pct_change ++ "%</span>".

(** The body of one column of a row: the same statements for the first and
    for the second metric. *)
Definition render_metric (tab : string) (col : nat) (metric : string)
    (days : Z) : UI unit :=
  _ <~ emit (Subheader tab col metric) ;;
  definition <~ lift (getitem METRIC_DEFINITIONS metric) ;;
  _ <~ emit (Markdown tab col ("*" ++ definition ++ "*")) ;;
  fetched <~ fetch metric days ;;
  let data := fst fetched in
  let yoy_data := snd fetched in
  match data with
  | Some data =>
      if negb (series_empty data) then
        let fig := create_dual_axis_plot data yoy_data metric in
        pct_change <~ lift (calculate_change float_of_str (to_pyval data)) ;;
        _ <~ (match pct_change with
              | Some pct_change => emit (Markdown tab col (change_label pct_change))
              | None => ui_ret tt
              end) ;;
        emit (PlotlyChart tab col fig)
      else emit (ErrorBox tab col "Unable to fetch data for this metric")
  | None => emit (ErrorBox tab col "Unable to fetch data for this metric")
  end.

(** The body of [with tab:] for one category. *)
Definition render_category (category : string) (metrics : list string)
    (days : Z) : UI unit :=
  _ <~ emit (Header category category) ;;
  for_each (range_step2 (List.length metrics))
    (fun i =>
       metric <~ lift (list_getitem metrics i) ;;
       _ <~ render_metric category 0 metric days ;;
       if (i + 1 <? List.length metrics)%nat then
         metric <~ lift (list_getitem metrics (i + 1)) ;;
         render_metric category 1 metric days
       else ui_ret tt).

(** The script from the sidebar on, for the option picked in the radio
    button and the state of the refresh button; the title, the introduction
    and the footer are fixed texts and are left out. *)
Definition run_script (time_range : string) (refresh : bool) : UI unit :=
  days <~ lift (getitem days_map time_range) ;;
  _ <~ (if refresh then clear_cache else ui_ret tt) ;;
  let categories := get_categories in
  _ <~ emit (Tabs (map fst categories)) ;;
  for_each categories (fun c => render_category (fst c) (snd c) days).

End Page.

(** The sub-headers on a page, each with its column. *)
Definition subheaders (ws : list widget) : list (nat * string) :=
  flat_map (fun w => match w with
                     | Subheader _ col text => [(col, text)]
                     | _ => []
                     end) ws.

(** The headers on a page. *)
Definition headers (ws : list widget) : list string :=
  flat_map (fun w => match w with
                     | Header _ text => [text]
                     | _ => []
                     end) ws.

(** The number of charts and of error boxes on a page. *)
Definition outcomes (ws : list widget) : nat :=
  List.length (filter (fun w => match w with
                                | PlotlyChart _ _ _ | ErrorBox _ _ _ => true
                                | _ => false
                                end) ws).

(** The metrics of a tab as its rows lay them out: columns 0 and 1 in
    turn. *)
Fixpoint in_columns (col : nat) (metrics : list string)
  : list (nat * string) :=
  match metrics with
  | [] => []
  | m :: r => (col, m) :: in_columns (1 - col) r
  end.

(** The series on which [calculate_change] divides by zero: first value
    zero, and neither the first nor the last value NaN. *)
Definition divides_by_zero (s : TimeSeries) : bool :=
  match s with
  | [] => false
  | (_, x) :: r =>
      negb (isna x || isna (last (values r) x)) && PrimFloat.eqb x 0%float
  end.

Definition safe_level (level : option TimeSeries) : Prop :=
  match level with
  | Some data => divides_by_zero data = false
  | None => True
  end.

(** No level series of the world, for a window, divides by zero; no level
    series in the cache does. *)
Definition world_safe (W : World) (days : Z) : Prop :=
  forall metric_name r,
    get_real_data W metric_name days = ret r -> safe_level (fst r).

Definition cache_safe (c : Cache) : Prop :=
  Forall (fun p => safe_level (fst (cached_value (snd p)))) c.

(** Federal funds rate at zero, then raised: a level series that starts
    with 0.0. *)
Definition world_zero_rate : World :=
  {| now := t_now;
     fred_get_series := fun _ _ _ =>
       ret [ (t_2024, 0%float); (t_2024 + DAY, 0.25%float) ];
     yf_download_close := provider_down |}.

(** A stand-in for the formatting of floats in the examples, none of which
    depends on the digits shown. *)
Definition format_stub (_ : float) : string := "0.00".

(** * Properties *)

(** ** The metric catalog *)

(** C9: [get_categories] is a constant with exactly the four categories
    Consumption, Supply, Interest Rate and Market, in this order, whose metric
    lists have 7, 7, 3 and 6 entries (23 in all), and each of the 23 metric
    names has an entry in [METRIC_DEFINITIONS] that is not the empty string. *)
Theorem get_categories_catalog :
  map fst get_categories = ["Consumption"; "Supply"; "Interest Rate"; "Market"]
  /\ map (fun c => List.length (snd c)) get_categories = [7; 7; 3; 6]%nat
  /\ List.length (List.concat (map snd get_categories)) = 23%nat
  /\ Forall (fun m => exists d, getitem METRIC_DEFINITIONS m = ret d /\ d <> "")
            (List.concat (map snd get_categories)).
Proof.
  repeat split; try reflexivity.
  cbn [get_categories map snd List.concat app].
  repeat (constructor; [eexists; split; [vm_compute; reflexivity | discriminate] | ]).
  constructor.
Qed.

(** ** The change summary *)

Section ChangeSummaryFacts.

Variable float_of_str : string -> option float.

(** A series without points: [iloc[0]] raises [IndexError], which is one of
    the four classes the handler catches. *)
Lemma calculate_change_empty :
  calculate_change float_of_str (PySeries []) = ret None.
Proof. reflexivity. Qed.

(** An endpoint that [float] rejects ([None], a string that is no number):
    the [TypeError] or [ValueError] is caught. *)
Lemma calculate_change_first_none (cells : list pyval) :
  calculate_change float_of_str (PySeries (PyNone :: cells)) = ret None.
Proof.
  unfold calculate_change. cbn [isinstance_Series iloc_first bind ret].
  destruct (iloc_last (PySeries (PyNone :: cells))) as [e | lv] eqn:E.
  - cbn in E. discriminate.
  - cbn [bind isinstance_Series_or_DataFrame ret].
    destruct (if isinstance_Series_or_DataFrame lv then iloc_first lv else ret lv)
      as [e | lv'] eqn:E'.
    + destruct lv as [ | | | | [ | ] | [ | ] ]; cbn in E'; try discriminate;
        injection E' as <-; reflexivity.
    + reflexivity.
Qed.

Lemma calculate_change_first_not_a_number (s : string) :
  float_of_str s = None ->
  calculate_change float_of_str (PySeries [PyStr s; PyFloat 1%float]) = ret None.
Proof.
  intros H. unfold calculate_change. cbn. rewrite H. reflexivity.
Qed.

(** A missing endpoint (NaN) gives [None] before the division is reached. *)
Lemma calculate_change_nan_endpoint (x y : float) :
  isna x || isna y = true ->
  calculate_change float_of_str (PySeries [PyFloat x; PyFloat y]) = ret None.
Proof.
  intros H. unfold calculate_change. cbn. rewrite H. reflexivity.
Qed.

(** With two float endpoints that are not NaN the division is reached, and a
    first value of zero makes it raise [ZeroDivisionError], which none of the
    four caught classes covers. *)
Lemma calculate_change_zero_first (y : float) (middle : list pyval) :
  isna y = false ->
  calculate_change float_of_str (PySeries (PyFloat 0%float :: middle ++ [PyFloat y]))
  = raise ZeroDivisionError.
Proof.
  intros H. unfold calculate_change.
  cbn [isinstance_Series iloc_first iloc_last bind ret].
  rewrite last_last.
  cbn [bind isinstance_Series_or_DataFrame ret py_float].
  replace (isna 0%float) with false by reflexivity.
  rewrite H. reflexivity.
Qed.

(** C2: at the series [0.0, 5.0], whose first value is zero, the code raises
    [ZeroDivisionError] to its caller and does not return [None]. *)
Theorem calculate_change_zero_first_raises :
  calculate_change float_of_str (PySeries [PyFloat 0%float; PyFloat 5%float])
  = raise ZeroDivisionError.
Proof. reflexivity. Qed.

(** C10: an argument that is not a pandas series (a list, a frame, [None],
    a float, a string) is answered with [None]; nothing is computed and
    nothing is raised. *)
Theorem calculate_change_not_series (data : pyval) :
  isinstance_Series data = false ->
  calculate_change float_of_str data = ret None.
Proof.
  intros H. unfold calculate_change. rewrite H. reflexivity.
Qed.

End ChangeSummaryFacts.

Lemma calculate_change_not_series_witness :
  calculate_change (fun _ => None)
    (PyDataFrame [[PyFloat 100%float; PyFloat 121%float]]) = ret None
  /\ calculate_change (fun _ => None)
       (PyList [PyFloat 100%float; PyFloat 121%float]) = ret None
  /\ calculate_change (fun _ => None) PyNone = ret None.
Proof.
  split; [ | split]; apply calculate_change_not_series; reflexivity.
Defined.

(** The dashboard hands the level series of the resolver to
    [calculate_change]; one that starts at zero makes it raise. *)
Example calculate_change_level_from_zero :
  calculate_change (fun _ => None)
    (to_pyval [ (t_2024, 0%float); (t_2024 + DAY, 5%float) ])
  = raise ZeroDivisionError.
Proof. reflexivity. Qed.

(** The worked example of the specification: from 100 to 121 is 21 percent. *)
Example calculate_change_21 :
  calculate_change (fun _ => None)
    (PySeries [PyFloat 100%float; PyFloat 110%float; PyFloat 121%float])
  = ret (Some 21%float).
Proof. reflexivity. Qed.

(** ** The resolver: failures become absent results *)

Lemma try_except_returns {A} (body : result A) (a : A) :
  exists r, try_except body (fun _ => ret a) = ret r.
Proof. destruct body as [e | v]; cbn; eauto. Qed.

Lemma calculate_yoy_growth_eq (data : TimeSeries) :
  calculate_yoy_growth data = ret (yoy_or_none data).
Proof.
  unfold calculate_yoy_growth, yoy_or_none.
  destruct (asfreq_D_ffill data); reflexivity.
Qed.

Section ResolverFacts.

Variable W : World.

Lemma get_fred_data_returns (id : string) (days : Z) :
  exists r, get_fred_data W id days = ret r.
Proof. apply try_except_returns. Qed.

Lemma get_ratio_data_returns (n d : string) (days : Z) :
  exists r, get_ratio_data W n d days = ret r.
Proof. apply try_except_returns. Qed.

Lemma get_market_data_returns (ticker : string) (days : Z) :
  exists r, get_market_data W ticker days = ret r.
Proof. apply try_except_returns. Qed.

Lemma get_fred_data_failure (id : string) (days : Z) (e : exn) :
  fred_get_series W id (start_date W days) (now W) = raise e ->
  get_fred_data W id days = ret None.
Proof. intros H. unfold get_fred_data. cbv zeta. fold (start_date W days). rewrite H. reflexivity. Qed.

Lemma get_fred_data_success (id : string) (days : Z) (s : TimeSeries) :
  fred_get_series W id (start_date W days) (now W) = ret s ->
  get_fred_data W id days = ret (Some (fillna_ffill s)).
Proof. intros H. unfold get_fred_data. cbv zeta. fold (start_date W days). rewrite H. reflexivity. Qed.

Lemma get_market_data_failure (ticker : string) (days : Z) (e : exn) :
  yf_download_close W ticker (start_date W days) (now W) = raise e ->
  get_market_data W ticker days = ret None.
Proof. intros H. unfold get_market_data. cbv zeta. fold (start_date W days). rewrite H. reflexivity. Qed.

Lemma get_ratio_data_failure (n d : string) (days : Z) (e : exn) :
  yf_download_close W n (start_date W days) (now W) = raise e
  \/ yf_download_close W d (start_date W days) (now W) = raise e ->
  get_ratio_data W n d days = ret None.
Proof.
  intros H. unfold get_ratio_data. cbv zeta. fold (start_date W days).
  destruct (yf_download_close W n (start_date W days) (now W)) as [e1 | s1];
    [reflexivity | ].
  destruct H as [H | H]; [discriminate | ]. rewrite H. reflexivity.
Qed.

Lemma dispatch_returns (metric_name : string) (days : Z) :
  exists data, dispatch W metric_name days = ret data.
Proof.
  unfold dispatch.
  repeat match goal with
         | |- context [if String.eqb ?a ?b then _ else _] =>
             destruct (String.eqb a b)
         end;
    try apply get_fred_data_returns;
    try apply get_ratio_data_returns;
    try apply get_market_data_returns.
  destruct (get_fred_data_returns "BAA" days) as [b ->].
  destruct (get_fred_data_returns "DGS10" days) as [t ->].
  cbn. destruct b, t; eauto.
Qed.

(** What [get_real_data] returns, from what the [if]/[elif] chain left in
    [data]. *)
Lemma get_real_data_eq (metric_name : string) (days : Z)
    (data : option TimeSeries) :
  dispatch W metric_name days = ret data ->
  get_real_data W metric_name days
  = ret (match data with
         | Some s => (Some (trim days s), option_map (trim days) (yoy_or_none s))
         | None => (None, None)
         end).
Proof.
  intros H. unfold get_real_data. rewrite H. cbn [bind ret].
  destruct data as [s | ]; [ | reflexivity].
  unfold post_process. rewrite calculate_yoy_growth_eq. cbn.
  destruct (yoy_or_none s); reflexivity.
Qed.

Lemma get_real_data_returns (metric_name : string) (days : Z) :
  exists level growth, get_real_data W metric_name days = ret (level, growth).
Proof.
  destruct (dispatch_returns metric_name days) as [data H].
  rewrite (get_real_data_eq _ _ _ H). destruct data; eauto.
Qed.

(** C1: for every metric name and every number of days, [get_real_data]
    returns a pair of optional series and raises nothing; and a provider call
    or a resampling that raises is turned into an absent series by the helper
    around it. *)
Theorem get_real_data_never_raises (metric_name : string) (days : Z) :
  (exists level growth, get_real_data W metric_name days = ret (level, growth))
  /\ (forall id e,
        fred_get_series W id (start_date W days) (now W) = raise e ->
        get_fred_data W id days = ret None)
  /\ (forall ticker e,
        yf_download_close W ticker (start_date W days) (now W) = raise e ->
        get_market_data W ticker days = ret None)
  /\ (forall n d e,
        yf_download_close W n (start_date W days) (now W) = raise e
        \/ yf_download_close W d (start_date W days) (now W) = raise e ->
        get_ratio_data W n d days = ret None)
  /\ (forall data e,
        asfreq_D_ffill data = raise e -> calculate_yoy_growth data = ret None).
Proof.
  split; [ | split; [ | split; [ | split ] ] ].
  - apply get_real_data_returns.
  - intros id e. apply get_fred_data_failure.
  - intros ticker e. apply get_market_data_failure.
  - intros n d e. apply get_ratio_data_failure.
  - intros data e H. unfold calculate_yoy_growth. rewrite H. reflexivity.
Qed.

(** C4: when the level series of the returned pair is absent, so is the
    growth series. *)
Theorem get_real_data_absent_level (metric_name : string) (days : Z)
    (growth : option TimeSeries) :
  get_real_data W metric_name days = ret (None, growth) -> growth = None.
Proof.
  destruct (dispatch_returns metric_name days) as [data H].
  rewrite (get_real_data_eq _ _ _ H).
  destruct data; intros E; inversion E; reflexivity.
Qed.

(** C8: a name that the chain does not test for takes the final [else]
    branch, the price series of [^GSPC], as "Market Breadth" does: the two
    calls return the same pair, and neither raises. *)
Theorem get_real_data_unknown_metric (metric_name : string) (days : Z) :
  ~ In metric_name special_cased ->
  dispatch W metric_name days = get_market_data W "^GSPC" days
  /\ dispatch W "Market Breadth" days = get_market_data W "^GSPC" days
  /\ get_real_data W metric_name days = get_real_data W "Market Breadth" days
  /\ exists level growth,
       get_real_data W metric_name days = ret (level, growth).
Proof.
  intros H.
  assert (D : dispatch W metric_name days = get_market_data W "^GSPC" days).
  { unfold dispatch.
    repeat match goal with
           | |- context [if String.eqb metric_name ?s then _ else _] =>
               destruct (String.eqb_spec metric_name s) as [E | _];
               [exfalso; apply H; rewrite E; cbn; tauto | ]
           end.
    reflexivity. }
  assert (D' : dispatch W "Market Breadth" days = get_market_data W "^GSPC" days)
    by reflexivity.
  repeat split; try assumption.
  - unfold get_real_data. rewrite D, D'. reflexivity.
  - apply get_real_data_returns.
Qed.

End ResolverFacts.

Lemma get_real_data_never_raises_witness :
  (exists level growth,
     get_real_data world_down "Retail Sales" 365 = ret (level, growth))
  /\ get_fred_data world_down "RSXFS" 365 = ret None.
Proof.
  destruct (get_real_data_never_raises world_down "Retail Sales" 365)
    as [R [F _]].
  split; [exact R | ].
  apply (F "RSXFS" (OtherException "ConnectionError")). reflexivity.
Defined.

Lemma get_real_data_absent_level_witness :
  exists growth,
    get_real_data world_down "Copper/Gold Ratio" 730 = ret (None, growth)
    /\ growth = None.
Proof.
  exists None. split; [reflexivity | ].
  apply (get_real_data_absent_level world_down "Copper/Gold Ratio" 730 None).
  reflexivity.
Defined.

Lemma get_real_data_unknown_metric_witness :
  get_real_data world_prices "Some Unrecognized Metric Name" 365
  = get_real_data world_prices "Market Breadth" 365.
Proof.
  apply (get_real_data_unknown_metric world_prices
           "Some Unrecognized Metric Name" 365).
  cbn. intros H.
  repeat (destruct H as [H | H]; [discriminate H | ]). exact H.
Defined.

(** ** Truncation to the requested window *)

(** For a window of at least one day, trimming keeps the last [days] points
    of a longer series and all of a shorter one. *)
Lemma trim_last_points (days : Z) (s : TimeSeries) :
  1 <= days -> trim days s = last_points (Z.to_nat days) s.
Proof.
  intros H. unfold trim, last_points, iloc_from.
  destruct (Z.gtb_spec (len s) days) as [G | G].
  - replace (- days <? 0) with true by (symmetry; apply Z.ltb_lt; lia).
    f_equal. unfold len in *. lia.
  - replace (List.length s - Z.to_nat days)%nat with 0%nat
      by (unfold len in G; lia).
    reflexivity.
Qed.

Lemma trim_len (days : Z) (s : TimeSeries) :
  1 <= days -> len (trim days s) <= days.
Proof.
  intros H. rewrite trim_last_points by assumption.
  unfold last_points, len. rewrite length_skipn. lia.
Qed.

(** Trimming only drops leading points, whatever the window. *)
Lemma trim_suffix (days : Z) (s : TimeSeries) :
  exists k, trim days s = skipn k s.
Proof.
  unfold trim, iloc_from. destruct (len s >? days).
  - eexists. reflexivity.
  - exists 0%nat. reflexivity.
Qed.

(** C5: for a window of at least one day, the returned level series and the
    returned growth series each have at most [days] points; each is the last
    [days] points of the series it was cut from, cut independently of the
    other. *)
Theorem get_real_data_truncation (W : World) (metric_name : string)
    (days : Z) (level growth : option TimeSeries) :
  1 <= days ->
  get_real_data W metric_name days = ret (level, growth) ->
  (forall s, level = Some s -> len s <= days)
  /\ (forall g, growth = Some g -> len g <= days)
  /\ (forall data,
        dispatch W metric_name days = ret (Some data) ->
        level = Some (last_points (Z.to_nat days) data)
        /\ growth = option_map (last_points (Z.to_nat days)) (yoy_or_none data)).
Proof.
  intros Hd E.
  destruct (dispatch_returns W metric_name days) as [data H].
  rewrite (get_real_data_eq _ _ _ _ H) in E.
  destruct data as [data | ].
  - injection E as <- <-.
    split; [ | split ].
    + intros s [= <-]. apply trim_len; assumption.
    + intros g Hg. destruct (yoy_or_none data) as [y | ]; [ | discriminate].
      injection Hg as <-. apply trim_len; assumption.
    + intros data' H'. rewrite H in H'. injection H' as <-.
      rewrite trim_last_points by assumption. split; [reflexivity | ].
      destruct (yoy_or_none data) as [y | ]; [ | reflexivity].
      cbn. rewrite trim_last_points by assumption. reflexivity.
  - injection E as <- <-.
    split; [ | split ]; try discriminate.
    intros data' H'. rewrite H in H'. discriminate.
Qed.

Lemma get_real_data_truncation_witness :
  exists level growth,
    get_real_data world_daily "Key Interest Rates" 10
    = ret (Some level, Some growth)
    /\ len level <= 10 /\ len growth <= 10.
Proof.
  pose (data := daily_constant t_2024 376 2%float).
  assert (E : get_real_data world_daily "Key Interest Rates" 10
              = ret (Some (trim 10 data),
                     Some (trim 10 (yoy_formula (daily_grid data)))))
    by (vm_compute; reflexivity).
  exists (trim 10 data), (trim 10 (yoy_formula (daily_grid data))).
  split; [exact E | ].
  destruct (get_real_data_truncation world_daily "Key Interest Rates" 10
              _ _ ltac:(lia) E) as [L [G _]].
  split; [apply L | apply G]; reflexivity.
Defined.

(** ** Alignment of two series, and the credit spread *)

Lemma In_insert_label (x t : Timestamp) (l : list Timestamp) :
  In x (insert_label t l) <-> x = t \/ In x l.
Proof.
  induction l as [ | u r IH]; cbn.
  - intuition.
  - destruct (Z.ltb_spec t u).
    + cbn. intuition.
    + destruct (Z.eqb_spec t u) as [-> | N].
      * cbn. intuition.
      * cbn. rewrite IH. intuition.
Qed.

Lemma In_union_index (x : Timestamp) (a b : list Timestamp) :
  In x (union_index a b) <-> In x a \/ In x b.
Proof.
  unfold union_index. rewrite <- in_app_iff.
  induction (a ++ b) as [ | t l IH]; cbn.
  - tauto.
  - rewrite In_insert_label, IH. intuition.
Qed.

Lemma lookup_In (t : Timestamp) (s : TimeSeries) (v : float) :
  lookup t s = Some v -> In t (index s).
Proof.
  induction s as [ | [u w] r IH]; cbn; [discriminate | ].
  destruct (Z.eqb_spec t u) as [-> | N]; auto.
Qed.

Lemma lookup_map_label (f : Timestamp -> float) (t : Timestamp)
    (l : list Timestamp) :
  In t l -> lookup t (map (fun u => (u, f u)) l) = Some (f t).
Proof.
  induction l as [ | u r IH]; cbn; [tauto | ].
  destruct (Z.eqb_spec t u) as [-> | N]; [reflexivity | ].
  intros [E | I]; [congruence | auto].
Qed.

(** The result of a binary operator carries the union of the labels, and at
    a label both operands have, the operator applied to their two values. *)
Lemma align_binop_index (op : float -> float -> float) (a b : TimeSeries) :
  index (align_binop op a b) = union_index (index a) (index b).
Proof.
  unfold align_binop, index. rewrite map_map. cbn. apply map_id.
Qed.

Lemma align_binop_lookup (op : float -> float -> float) (a b : TimeSeries)
    (t : Timestamp) (x y : float) :
  lookup t a = Some x -> lookup t b = Some y ->
  lookup t (align_binop op a b) = Some (op x y).
Proof.
  intros Ha Hb. unfold align_binop.
  rewrite (lookup_map_label
             (fun u => match lookup u a, lookup u b with
                       | Some x, Some y => op x y
                       | _, _ => NaN
                       end)).
  - rewrite Ha, Hb. reflexivity.
  - apply In_union_index. left. eapply lookup_In; eassumption.
Qed.

(** A label only one operand has gets NaN. *)
Lemma align_binop_lookup_missing (op : float -> float -> float)
    (a b : TimeSeries) (t : Timestamp) :
  In t (index a) \/ In t (index b) ->
  lookup t a = None \/ lookup t b = None ->
  lookup t (align_binop op a b) = Some NaN.
Proof.
  intros Hin Hnone. unfold align_binop.
  rewrite (lookup_map_label
             (fun u => match lookup u a, lookup u b with
                       | Some x, Some y => op x y
                       | _, _ => NaN
                       end)).
  - destruct Hnone as [-> | ->]; [reflexivity | ].
    destruct (lookup t a); reflexivity.
  - apply In_union_index. assumption.
Qed.

(** C3: "Credit Spread" needs both yields.  With [baa] and [treasury] what
    the two calls of [get_fred_data] return: when either is absent the result
    is the pair of two absent series; when both are present, each with
    increasing dates, the level series is their difference, labels aligned on
    the union of the two indexes and values subtracted label by label,
    forward-filled, and then trimmed to the window like every level
    series. *)
Theorem credit_spread_needs_both (W : World) (days : Z)
    (baa treasury : option TimeSeries) :
  get_fred_data W "BAA" days = ret baa ->
  get_fred_data W "DGS10" days = ret treasury ->
  match baa, treasury with
  | Some b, Some t =>
      increasing (index b) = true ->
      increasing (index t) = true ->
      dispatch W "Credit Spread" days
      = ret (Some (fillna_ffill (series_sub b t)))
      /\ (exists growth,
            get_real_data W "Credit Spread" days
            = ret (Some (trim days (fillna_ffill (series_sub b t))), growth))
      /\ index (series_sub b t) = union_index (index b) (index t)
      /\ (forall d x y,
             lookup d b = Some x -> lookup d t = Some y ->
             lookup d (series_sub b t) = Some (PrimFloat.sub x y))
  | _, _ => get_real_data W "Credit Spread" days = ret (None, None)
  end.
Proof.
  intros Hb Ht.
  assert (D : dispatch W "Credit Spread" days
              = match baa, treasury with
                | Some b, Some t => ret (Some (fillna_ffill (series_sub b t)))
                | _, _ => ret None
                end).
  { change (dispatch W "Credit Spread" days)
      with (bind (get_fred_data W "BAA" days)
              (fun baa => bind (get_fred_data W "DGS10" days)
                 (fun treasury =>
                    match baa, treasury with
                    | Some b, Some t =>
                        ret (Some (fillna_ffill (series_sub b t)))
                    | _, _ => ret None
                    end))).
    rewrite Hb, Ht. reflexivity. }
  destruct baa as [b | ], treasury as [t | ];
    try (apply (get_real_data_eq _ _ _ _ D)).
  intros _ _. split; [exact D | ]. split; [ | split ].
  - eexists. apply (get_real_data_eq _ _ _ _ D).
  - apply align_binop_index.
  - intros d x y. apply align_binop_lookup.
Qed.

Lemma credit_spread_needs_both_witness :
  (exists growth,
      get_real_data world_yields "Credit Spread" 90
      = ret (Some [ (t_2024, 2%float);
                    (t_2024 + DAY, 2%float);
                    (t_2024 + 31 * DAY, 2%float) ], growth))
  /\ get_real_data world_no_treasury "Credit Spread" 90 = ret (None, None).
Proof.
  split.
  - apply (credit_spread_needs_both world_yields 90
             (Some [ (t_2024, 6%float); (t_2024 + 31 * DAY, 7%float) ])
             (Some [ (t_2024, 4%float); (t_2024 + DAY, 5%float) ]));
      reflexivity.
  - apply (credit_spread_needs_both world_no_treasury 90
             (Some [ (t_2024, 6%float); (t_2024 + 31 * DAY, 7%float) ])
             None);
      reflexivity.
Defined.

(** ** Forward filling *)

Lemma ffill_from_index (o : option float) (s : TimeSeries) :
  index (ffill_from o s) = index s.
Proof.
  revert o. induction s as [ | [t v] r IH]; intros o; cbn; [reflexivity | ].
  destruct (isna v); cbn; rewrite IH; reflexivity.
Qed.

Lemma ffill_from_some_no_nan (x : float) (s : TimeSeries) :
  isna x = false -> no_nan (values (ffill_from (Some x) s)) = true.
Proof.
  revert x. induction s as [ | [t v] r IH]; intros x Hx; cbn; [reflexivity | ].
  destruct (isna v) eqn:Hv; cbn.
  - rewrite Hx. cbn. apply IH. assumption.
  - rewrite Hv. cbn. apply IH. assumption.
Qed.

(** After [fillna(method='ffill')] the only NaNs left are leading ones. *)
Lemma fillna_ffill_nan_prefix (s : TimeSeries) :
  nan_prefix_only (values (fillna_ffill s)) = true.
Proof.
  unfold fillna_ffill.
  induction s as [ | [t v] r IH]; cbn; [reflexivity | ].
  destruct (isna v) eqn:Hv; cbn; rewrite Hv.
  - exact IH.
  - apply ffill_from_some_no_nan. assumption.
Qed.

Lemma ffill_from_no_nan (o : option float) (s : TimeSeries) :
  no_nan (values s) = true -> ffill_from o s = s.
Proof.
  revert o. induction s as [ | [t v] r IH]; intros o; cbn; [reflexivity | ].
  intros H. apply andb_true_iff in H as [Hv Hr].
  apply negb_true_iff in Hv. rewrite Hv. f_equal. apply IH. assumption.
Qed.

(** Forward filling changes nothing when the only NaNs are leading ones. *)
Lemma fillna_ffill_fixed (s : TimeSeries) :
  nan_prefix_only (values s) = true -> fillna_ffill s = s.
Proof.
  unfold fillna_ffill.
  induction s as [ | [t v] r IH]; cbn; [reflexivity | ].
  destruct (isna v) eqn:Hv; intros H.
  - f_equal. apply IH. assumption.
  - f_equal. apply ffill_from_no_nan. assumption.
Qed.

Lemma fillna_ffill_idempotent (s : TimeSeries) :
  fillna_ffill (fillna_ffill s) = fillna_ffill s.
Proof. apply fillna_ffill_fixed, fillna_ffill_nan_prefix. Qed.

(** ** Resampling to the daily grid *)

Lemma DAY_pos : 0 < DAY.
Proof. reflexivity. Qed.

Lemma nth_error_date_range (start stop : Timestamp) (k : nat) (t : Timestamp) :
  nth_error (date_range start stop) k = Some t ->
  t = start + Z.of_nat k * DAY /\ start <= t <= stop.
Proof.
  unfold date_range. rewrite nth_error_map, nth_error_seq.
  destruct (Nat.ltb_spec k (Z.to_nat ((stop - start) / DAY + 1))) as [L | L];
    [ | discriminate].
  cbn. intros [= <-]. split; [reflexivity | ].
  pose proof DAY_pos as P.
  assert (Z.of_nat k <= (stop - start) / DAY) by lia.
  pose proof (Z.mul_div_le (stop - start) DAY P).
  nia.
Qed.

Lemma In_date_range (start stop t : Timestamp) :
  In t (date_range start stop) <->
  exists k : nat, t = start + Z.of_nat k * DAY /\ t <= stop.
Proof.
  split.
  - intros H. apply In_nth_error in H as [k H].
    apply nth_error_date_range in H as [E [_ B]]. eauto.
  - intros [k [E B]]. unfold date_range. apply in_map_iff.
    exists k. split; [auto | ]. apply in_seq.
    pose proof DAY_pos as P.
    assert (Z.of_nat k <= (stop - start) / DAY)
      by (apply Z.div_le_lower_bound; lia).
    lia.
Qed.

Lemma date_range_sorted (start stop : Timestamp) :
  StronglySorted Z.le (date_range start stop).
Proof.
  unfold date_range. generalize (Z.to_nat ((stop - start) / DAY + 1)) as n.
  generalize 0%nat as a.
  intros a n. revert a.
  induction n as [ | n IH]; intros a; cbn; constructor.
  - apply IH.
  - apply Forall_forall. intros y Hy.
    apply in_map_iff in Hy as [k [<- Hk]]. apply in_seq in Hk.
    pose proof DAY_pos. nia.
Qed.

(** On an increasing index, scanning for the last label not after [g] finds
    the last known value. *)
Lemma increasing_from_lt (t : Timestamp) (l : list Timestamp) :
  increasing_from t l = true -> Forall (fun u => t < u) l.
Proof.
  revert t. induction l as [ | u r IH]; intros t H; constructor.
  - cbn in H. apply andb_true_iff in H as [H _]. apply Z.ltb_lt. assumption.
  - cbn in H. apply andb_true_iff in H as [H1 H2].
    apply Z.ltb_lt in H1. apply IH in H2.
    eapply Forall_impl; [ | exact H2]. cbn. intros; lia.
Qed.

Lemma last_cons_default {A} (a d : A) (l : list A) :
  last (a :: l) d = last l a.
Proof.
  revert a d. induction l as [ | b r IH]; intros a d; [reflexivity | ].
  change (last (a :: b :: r) d) with (last (b :: r) d).
  rewrite (IH b d), (IH b a). reflexivity.
Qed.

Lemma filter_none {A} (f : A -> bool) (l : list A) :
  Forall (fun a => f a = false) l -> filter f l = [].
Proof.
  induction 1 as [ | a r Ha _ IH]; cbn; [reflexivity | ].
  rewrite Ha. exact IH.
Qed.

Lemma pad_lookup_last_known (g : Timestamp) (d : float) (s : TimeSeries) :
  increasing (index s) = true ->
  pad_lookup g d s = last (values (filter (fun p => fst p <=? g) s)) d.
Proof.
  revert d. induction s as [ | [t v] r IH]; intros d H; [reflexivity | ].
  cbn [pad_lookup filter fst].
  destruct (Z.leb_spec t g) as [L | L].
  - cbn [values map snd]. rewrite last_cons_default. apply IH.
    destruct r as [ | [u w] r']; [reflexivity | ].
    cbn in H |- *. apply andb_true_iff in H as [_ H]. exact H.
  - cbn in H. apply increasing_from_lt in H.
    rewrite filter_none; [reflexivity | ].
    unfold index in H. rewrite Forall_map in H.
    eapply Forall_impl; [ | exact H]. cbn beta. intros p Hp.
    apply Z.leb_gt. unfold Timestamp in *. lia.
Qed.

Lemma pad_lookup_no_nan (g : Timestamp) (d : float) (s : TimeSeries) :
  isna d = false -> no_nan (values s) = true ->
  isna (pad_lookup g d s) = false.
Proof.
  revert d. induction s as [ | [t v] r IH]; intros d Hd H; cbn; [exact Hd | ].
  cbn in H. apply andb_true_iff in H as [Hv Hr]. apply negb_true_iff in Hv.
  destruct (t <=? g); auto.
Qed.

(** A later day never falls back from a value to NaN. *)
Lemma pad_lookup_mono (g g' : Timestamp) (d : float) (s : TimeSeries) :
  g <= g' ->
  nan_prefix_only (d :: values s) = true ->
  isna (pad_lookup g d s) = false ->
  isna (pad_lookup g' d s) = false.
Proof.
  intros Hg. revert d.
  induction s as [ | [t v] r IH]; intros d Hp H; [exact H | ].
  cbn [pad_lookup] in *.
  destruct (Z.leb_spec t g) as [L | L].
  - replace (t <=? g') with true
      by (symmetry; apply Z.leb_le; unfold Timestamp in *; lia).
    apply IH; [ | exact H].
    cbn in Hp |- *. destruct (isna d); [exact Hp | ].
    apply andb_true_iff in Hp as [Hv Hr]. apply negb_true_iff in Hv.
    rewrite Hv. exact Hr.
  - cbn in Hp. rewrite H in Hp.
    apply andb_true_iff in Hp as [Hv Hr]. apply negb_true_iff in Hv.
    destruct (t <=? g'); [ | exact H].
    apply pad_lookup_no_nan; assumption.
Qed.

(** Reindexing an increasing grid with the ['ffill'] rule keeps the shape
    "NaNs first". *)
Lemma reindex_ffill_nan_prefix (grid : list Timestamp) (s : TimeSeries) :
  StronglySorted Z.le grid ->
  nan_prefix_only (values s) = true ->
  nan_prefix_only (values (reindex_ffill grid s)) = true.
Proof.
  intros Hs Hp. unfold reindex_ffill, values. rewrite map_map. cbn [snd].
  induction Hs as [ | g rest Hrest IH Hall]; cbn; [reflexivity | ].
  destruct (isna (pad_lookup g NaN s)) eqn:Hg; [exact IH | ].
  unfold no_nan. apply forallb_forall. intros x Hx.
  apply in_map_iff in Hx as [g' [<- Hg']].
  apply negb_true_iff.
  apply (pad_lookup_mono g g'); [ | exact Hp | exact Hg].
  rewrite Forall_forall in Hall. apply Hall. assumption.
Qed.

(** What [asfreq] returns, when it returns, is the daily grid of the
    specification. *)
Lemma asfreq_D_ffill_daily_grid (s daily : TimeSeries) :
  asfreq_D_ffill s = ret daily -> daily = daily_grid s.
Proof.
  unfold asfreq_D_ffill, daily_grid.
  destruct s as [ | [t0 v0] r]; [intros [= <-]; reflexivity | ].
  destruct (increasing (index ((t0, v0) :: r))) eqn:Hi; [ | discriminate].
  intros [= <-]. unfold reindex_ffill. apply map_ext. intros g.
  unfold last_known. rewrite pad_lookup_last_known by exact Hi. reflexivity.
Qed.

Lemma asfreq_D_ffill_increasing (s : TimeSeries) :
  increasing (index s) = true -> asfreq_D_ffill s = ret (daily_grid s).
Proof.
  intros H.
  destruct (asfreq_D_ffill s) as [e | daily] eqn:E.
  - unfold asfreq_D_ffill in E. destruct s as [ | [t0 v0] r]; [discriminate | ].
    rewrite H in E. discriminate.
  - rewrite (asfreq_D_ffill_daily_grid _ _ E). reflexivity.
Qed.

Lemma asfreq_D_ffill_nan_prefix (s daily : TimeSeries) :
  nan_prefix_only (values s) = true ->
  asfreq_D_ffill s = ret daily ->
  nan_prefix_only (values daily) = true.
Proof.
  unfold asfreq_D_ffill.
  destruct s as [ | [t0 v0] r]; [intros _ [= <-]; reflexivity | ].
  destruct (increasing (index ((t0, v0) :: r))); [ | discriminate].
  intros Hp [= <-]. apply reindex_ffill_nan_prefix; [ | exact Hp].
  apply date_range_sorted.
Qed.

(** The daily grid: its labels are the days from the first to the last label
    of the series. *)
Lemma daily_grid_index (t0 : Timestamp) (v0 : float) (r : TimeSeries) :
  index (daily_grid ((t0, v0) :: r))
  = date_range t0 (last (index ((t0, v0) :: r)) t0).
Proof.
  unfold daily_grid, index. rewrite map_map. cbn [fst]. apply map_id.
Qed.

(** ** Percentage change over 365 positions *)

Lemma div_NaN (x : float) : PrimFloat.div x NaN = NaN.
Proof.
  apply Prim2SF_inj. rewrite div_spec.
  change (Prim2SF NaN) with S754_nan.
  unfold SF64div, SFdiv. destruct (Prim2SF x); reflexivity.
Qed.

Lemma nth_error_combine {A B} (l : list A) (l' : list B) (k : nat) :
  nth_error (combine l l') k
  = match nth_error l k, nth_error l' k with
    | Some a, Some b => Some (a, b)
    | _, _ => None
    end.
Proof.
  revert l' k. induction l as [ | a r IH]; intros l' k.
  - destruct k; reflexivity.
  - destruct l' as [ | b r']; [destruct k; cbn; [ | destruct (nth_error r k)]; reflexivity | ].
    destruct k; cbn; [reflexivity | apply IH].
Qed.

Lemma nth_error_shift (periods : nat) (vs : list float) (k : nat) :
  nth_error (shift periods vs) k
  = if (k <? List.length vs)%nat
    then if (k <? periods)%nat then Some NaN else nth_error vs (k - periods)
    else None.
Proof.
  unfold shift. rewrite nth_error_firstn.
  destruct (k <? List.length vs)%nat; [ | reflexivity].
  rewrite nth_error_app, repeat_length.
  destruct (Nat.ltb_spec k periods) as [L | L]; [ | reflexivity].
  apply nth_error_repeat. assumption.
Qed.

(** Position [k] of [pct_change]: the label of the padded series there, and
    its value divided by the one [periods] positions earlier, less one; NaN
    takes the place of the earlier value in the first [periods] positions. *)
Lemma nth_error_pct_change (periods : nat) (s : TimeSeries) (k : nat) :
  nth_error (pct_change periods s) k
  = match nth_error (fillna_ffill s) k with
    | Some (t, x) =>
        Some (t,
              PrimFloat.sub
                (PrimFloat.div x
                   (if (k <? periods)%nat then NaN
                    else match nth_error (fillna_ffill s) (k - periods) with
                         | Some (_, y) => y
                         | None => NaN
                         end))
                1%float)
    | None => None
    end.
Proof.
  unfold pct_change. cbv zeta.
  set (p := fillna_ffill s).
  rewrite nth_error_combine. unfold index at 1.
  rewrite !nth_error_map, nth_error_combine, nth_error_shift.
  unfold values. rewrite !nth_error_map, length_map.
  destruct (nth_error p k) as [[t x] | ] eqn:E; [ | reflexivity].
  cbn [option_map fst snd].
  assert (L : (k < List.length p)%nat)
    by (apply nth_error_Some; congruence).
  apply Nat.ltb_lt in L. rewrite L.
  destruct (k <? periods)%nat; [reflexivity | ].
  destruct (nth_error p (k - periods)) as [[t' y] | ] eqn:E'; [reflexivity | ].
  apply nth_error_None in E'. apply Nat.ltb_lt in L. lia.
Qed.

Lemma NaN_div (y : float) : PrimFloat.div NaN y = NaN.
Proof.
  apply Prim2SF_inj. rewrite div_spec.
  change (Prim2SF NaN) with S754_nan. reflexivity.
Qed.

Lemma lookup_None (t : Timestamp) (s : TimeSeries) :
  ~ In t (index s) -> lookup t s = None.
Proof.
  induction s as [ | [u w] r IH]; cbn; [reflexivity | ].
  intros H. destruct (Z.eqb_spec t u) as [-> | N]; [tauto | ].
  apply IH. tauto.
Qed.

Lemma lookup_Some_In (t : Timestamp) (s : TimeSeries) (y : float) :
  lookup t s = Some y -> In (t, y) s.
Proof.
  induction s as [ | [u w] r IH]; cbn; [discriminate | ].
  destruct (Z.eqb_spec t u) as [-> | N]; [intros [= ->]; auto | auto].
Qed.

(** On a daily grid that forward filling leaves alone, the percentage change
    by position that pandas computes is the formula by label of the
    specification: 365 positions earlier is 365 days earlier. *)
Lemma pct_change_yoy_formula (start stop : Timestamp)
    (f : Timestamp -> float) :
  let daily := map (fun g => (g, f g)) (date_range start stop) in
  fillna_ffill daily = daily ->
  series_scale 100%float (pct_change 365 daily) = yoy_formula daily.
Proof.
  intros daily Hfix. apply nth_error_ext. intros k.
  unfold series_scale, yoy_formula.
  rewrite !nth_error_map, nth_error_pct_change, Hfix.
  destruct (nth_error daily k) as [[t x] | ] eqn:E;
    rewrite ?E; [ | reflexivity].
  cbn [option_map fst snd]. do 2 f_equal.
  assert (Hidx : index daily = date_range start stop).
  { unfold daily, index. rewrite map_map. cbn [fst]. apply map_id. }
  assert (Ht : nth_error (date_range start stop) k = Some t).
  { rewrite <- Hidx. unfold index. rewrite nth_error_map, E. reflexivity. }
  pose proof (nth_error_date_range _ _ _ _ Ht) as [Et [Hlo Hhi]].
  pose proof DAY_pos as P.
  destruct (Nat.ltb_spec k 365) as [L | L].
  - rewrite div_NaN.
    rewrite lookup_None; [reflexivity | ].
    rewrite Hidx. intros Hin. apply In_date_range in Hin as [j [Ej _]].
    unfold Timestamp in *. nia.
  - assert (Hin : In (t - 365 * DAY) (date_range start stop)).
    { apply In_date_range. exists (k - 365)%nat.
      unfold Timestamp in *. split; [ | lia].
      rewrite Nat2Z.inj_sub by assumption. lia. }
    unfold daily at 2.
    rewrite (lookup_map_label f _ _ Hin).
    assert (E' : nth_error daily (k - 365)
                 = Some (t - 365 * DAY, f (t - 365 * DAY))).
    { apply In_nth_error in Hin as [j Hj].
      pose proof (nth_error_date_range _ _ _ _ Hj) as [Ej _].
      assert (j = (k - 365)%nat) by (unfold Timestamp in *; nia). subst j.
      unfold daily. rewrite nth_error_map.
      unfold Timestamp in *. rewrite Hj. reflexivity. }
    rewrite E'. reflexivity.
Qed.

Lemma last_default_or_In {A} (l : list A) (d : A) :
  last l d = d \/ In (last l d) l.
Proof.
  revert d. induction l as [ | a r IH]; intros d; [left; reflexivity | ].
  right. rewrite last_cons_default.
  destruct (IH a) as [-> | I]; [left; reflexivity | right; exact I].
Qed.

(** ** The growth series against the level series *)

Lemma asfreq_D_ffill_index (s daily : TimeSeries) :
  asfreq_D_ffill s = ret daily ->
  index daily = match s with
                | [] => []
                | (t0, _) :: _ => date_range t0 (last (index s) t0)
                end.
Proof.
  intros H. rewrite (asfreq_D_ffill_daily_grid _ _ H).
  destruct s as [ | [t0 v0] r]; [reflexivity | apply daily_grid_index].
Qed.

Lemma In_trim (days : Z) (s : TimeSeries) (p : Timestamp * float) :
  In p (trim days s) -> In p s.
Proof.
  destruct (trim_suffix days s) as [k ->].
  intros H. rewrite <- (firstn_skipn k s). apply in_or_app. right. exact H.
Qed.

(** Every helper hands back a forward-filled series, so the series the chain
    leaves in [data] has no NaN after its first value. *)
Lemma dispatch_nan_prefix (W : World) (metric_name : string) (days : Z)
    (data : TimeSeries) :
  dispatch W metric_name days = ret (Some data) ->
  nan_prefix_only (values data) = true.
Proof.
  assert (F : forall id s, get_fred_data W id days = ret (Some s) ->
                           nan_prefix_only (values s) = true).
  { intros id s. unfold get_fred_data. cbv zeta.
    destruct (fred_get_series W id _ _); cbn; [discriminate | ].
    intros [= <-]. apply fillna_ffill_nan_prefix. }
  assert (M : forall tk s, get_market_data W tk days = ret (Some s) ->
                           nan_prefix_only (values s) = true).
  { intros tk s. unfold get_market_data. cbv zeta.
    destruct (yf_download_close W tk _ _); cbn; [discriminate | ].
    intros [= <-]. apply fillna_ffill_nan_prefix. }
  assert (R : forall n d s, get_ratio_data W n d days = ret (Some s) ->
                            nan_prefix_only (values s) = true).
  { intros n d s. unfold get_ratio_data. cbv zeta.
    destruct (yf_download_close W n _ _); cbn; [discriminate | ].
    destruct (yf_download_close W d _ _); cbn; [discriminate | ].
    intros [= <-]. apply fillna_ffill_nan_prefix. }
  unfold dispatch.
  repeat match goal with
         | |- context [if String.eqb ?a ?b then _ else _] =>
             destruct (String.eqb a b)
         end;
    try apply F; try apply M; try apply R.
  destruct (get_fred_data W "BAA" days) as [e | [b | ]]; cbn;
    try discriminate;
    destruct (get_fred_data W "DGS10" days) as [e' | [t | ]]; cbn;
    try discriminate.
  intros [= <-]. apply fillna_ffill_nan_prefix.
Qed.

(** C6, as the code has it: the level series is the fetched series (dates
    increasing) trimmed to the window, and every point of the growth series
    lies on the daily grid of the fetched series, between its first and its
    last label; the points less than 365 days after the first fetched label
    are kept, with the value NaN. *)
Theorem growth_within_fetched_range (W : World) (metric_name : string)
    (days : Z) (data : TimeSeries) (level : option TimeSeries)
    (growth : TimeSeries) :
  dispatch W metric_name days = ret (Some data) ->
  increasing (index data) = true ->
  get_real_data W metric_name days = ret (level, Some growth) ->
  level = Some (trim days data)
  /\ forall t v,
       In (t, v) growth ->
       exists t0,
         hd_error (index data) = Some t0
         /\ t0 <= t <= last (index data) t0
         /\ (exists k : nat, t = t0 + Z.of_nat k * DAY)
         /\ (t < t0 + 365 * DAY -> isna v = true).
Proof.
  intros Hd Hinc E. rewrite (get_real_data_eq _ _ _ _ Hd) in E.
  injection E as <- Hg. split; [reflexivity | ].
  unfold yoy_or_none in Hg.
  pose proof (asfreq_D_ffill_increasing _ Hinc) as Ha. rewrite Ha in Hg.
  cbn in Hg. injection Hg as <-.
  intros t v Hin. apply In_trim in Hin. apply In_nth_error in Hin as [k Hk].
  unfold series_scale in Hk.
  rewrite nth_error_map, nth_error_pct_change in Hk.
  destruct (nth_error (fillna_ffill (daily_grid data)) k) as [[t' x] | ] eqn:Ep;
    [ | discriminate].
  cbn [option_map fst snd] in Hk. injection Hk as -> <-.
  assert (Ht : nth_error (index (daily_grid data)) k = Some t).
  { unfold fillna_ffill in Ep.
    rewrite <- (ffill_from_index None (daily_grid data)).
    unfold index. rewrite nth_error_map, Ep. reflexivity. }
  rewrite (asfreq_D_ffill_index _ _ Ha) in Ht.
  destruct data as [ | [t0 v0] r]; [destruct k; discriminate | ].
  apply nth_error_date_range in Ht as [Et Hr].
  exists t0. split; [reflexivity | ]. split; [exact Hr | ].
  split; [exists k; exact Et | ].
  intros Hlt. pose proof DAY_pos.
  destruct (Nat.ltb_spec k 365) as [L | L].
  - cbv iota. rewrite div_NaN. reflexivity.
  - exfalso. unfold Timestamp in *. nia.
Qed.

(** C6 as stated fails on a daily series: of 376 fetched days the last ten
    are returned as the level series, and the growth series covers the same
    ten days, with defined values, where the claim wants it to start almost
    a year after the first of them. *)
Lemma growth_after_first_year_fails :
  exists level growth,
    get_real_data world_daily "Key Interest Rates" 10
    = ret (Some level, Some growth)
    /\ hd_error level = Some (t_2024 + 366 * DAY, 2%float)
    /\ hd_error growth = Some (t_2024 + 366 * DAY, 0%float)
    /\ ~ growth_after_first_year level growth.
Proof.
  eexists. eexists. split; [vm_compute; reflexivity | ].
  split; [reflexivity | ]. split; [reflexivity | ].
  intros H.
  specialize (H (t_2024 + 366 * DAY) (t_2024 + 366 * DAY) 0%float
                eq_refl (or_introl eq_refl)).
  vm_compute in H. apply H. reflexivity.
Qed.

Lemma growth_within_fetched_range_witness :
  exists growth,
    get_real_data world_sparse "Key Interest Rates" 365
    = ret (Some [ (t_2024, 2%float); (t_2024 + 400 * DAY, 2%float) ],
           Some growth)
    /\ hd_error growth = Some (t_2024 + 36 * DAY, NaN)
    /\ exists t0,
         Some t_2024 = Some t0
         /\ t0 <= t_2024 + 36 * DAY <= t_2024 + 400 * DAY
         /\ (exists k : nat, t_2024 + 36 * DAY = t0 + Z.of_nat k * DAY)
         /\ (t_2024 + 36 * DAY < t0 + 365 * DAY -> isna NaN = true).
Proof.
  eexists. split; [vm_compute; reflexivity | ].
  split; [reflexivity | ].
  eapply (growth_within_fetched_range world_sparse "Key Interest Rates" 365
            [ (t_2024, 2%float); (t_2024 + 400 * DAY, 2%float) ]).
  - reflexivity.
  - reflexivity.
  - vm_compute. reflexivity.
  - left. reflexivity.
Defined.

(** On the series the chain leaves in [data], what [calculate_yoy_growth]
    computes is the year-over-year formula on the daily grid. *)
Lemma yoy_or_none_formula (data : TimeSeries) :
  nan_prefix_only (values data) = true ->
  yoy_or_none data
  = match asfreq_D_ffill data with
    | inr _ => Some (yoy_formula (daily_grid data))
    | inl _ => None
    end.
Proof.
  intros Hp. unfold yoy_or_none.
  destruct (asfreq_D_ffill data) as [e | daily] eqn:Ha; [reflexivity | ].
  pose proof (asfreq_D_ffill_nan_prefix _ _ Hp Ha) as Hd.
  apply fillna_ffill_fixed in Hd.
  rewrite (asfreq_D_ffill_daily_grid _ _ Ha) in Hd |- *.
  f_equal. destruct data as [ | [t0 v0] r]; [reflexivity | ].
  apply (pct_change_yoy_formula t0 (last (index ((t0, v0) :: r)) t0)
           (fun g => last_known g ((t0, v0) :: r))).
  exact Hd.
Qed.

(** The daily grid of a constant series holds that constant, or NaN. *)
Lemma daily_grid_constant (v : float) (data : TimeSeries) (t : Timestamp)
    (x : float) :
  Forall (fun p => snd p = v) data ->
  In (t, x) (daily_grid data) ->
  x = v \/ x = NaN.
Proof.
  intros Hc Hin. unfold daily_grid in Hin.
  destruct data as [ | [t0 v0] r]; [contradiction | ].
  apply in_map_iff in Hin as [g [[= <- <-] _]].
  unfold last_known.
  destruct (last_default_or_In
              (values (filter (fun p : Timestamp * float => fst p <=? g)
                         ((t0, v0) :: r))) NaN) as [E | I];
    [right; exact E | left].
  unfold values in I |- *. apply in_map_iff in I as [p [Ep Hp]].
  apply filter_In in Hp as [Hp _].
  rewrite Forall_forall in Hc. rewrite <- Ep. apply Hc. exact Hp.
Qed.

(** C7: for a fetched series with increasing dates, the returned level
    series is that series itself, trimmed and not resampled, and the growth
    series is [(value[t] / value[t - 365 days] - 1) * 100] over the daily
    forward-filled grid of the fetched series, trimmed; it is absent when
    the resampling raises.  For a constant series of a value [v] with
    [v / v = 1] every point of the growth series is 0 or undefined. *)
Theorem growth_is_yoy_on_daily_grid (W : World) (metric_name : string)
    (days : Z) (data : TimeSeries) (level growth : option TimeSeries) :
  dispatch W metric_name days = ret (Some data) ->
  get_real_data W metric_name days = ret (level, growth) ->
  level = Some (trim days data)
  /\ (increasing (index data) = true ->
      growth = Some (trim days (yoy_formula (daily_grid data))))
  /\ (forall e, asfreq_D_ffill data = raise e -> growth = None)
  /\ (forall v,
        increasing (index data) = true ->
        Forall (fun p => snd p = v) data ->
        PrimFloat.div v v = 1%float ->
        exists g,
          growth = Some g
          /\ Forall (fun p => isna (snd p) = true \/ snd p = 0%float) g).
Proof.
  intros Hd E. rewrite (get_real_data_eq _ _ _ _ Hd) in E.
  injection E as <- <-.
  rewrite (yoy_or_none_formula _ (dispatch_nan_prefix _ _ _ _ Hd)).
  split; [reflexivity | ].
  split; [ | split].
  - intros Hinc. rewrite (asfreq_D_ffill_increasing _ Hinc). reflexivity.
  - intros e He. rewrite He. reflexivity.
  - intros v Hinc Hc Hv. rewrite (asfreq_D_ffill_increasing _ Hinc).
    eexists. split; [reflexivity | ].
    apply Forall_forall. intros [t y] Hin. apply In_trim in Hin.
    unfold yoy_formula in Hin.
    remember (365 * DAY) as year eqn:Ey in Hin.
    apply in_map_iff in Hin as [[t' x] [[= -> <-] Hx]].
    cbv beta iota delta [fst snd].
    destruct (lookup (t - year) (daily_grid data)) as [z | ] eqn:El;
      [ | left; reflexivity].
    apply lookup_Some_In in El.
    destruct (daily_grid_constant _ _ _ _ Hc Hx) as [-> | ->];
      [ | left; rewrite NaN_div; reflexivity].
    destruct (daily_grid_constant _ _ _ _ Hc El) as [-> | ->];
      [ | left; rewrite div_NaN; reflexivity].
    right. rewrite Hv. reflexivity.
Qed.

Lemma growth_is_yoy_on_daily_grid_witness :
  exists g,
    get_real_data world_sparse "Key Interest Rates" 365
    = ret (Some [ (t_2024, 2%float); (t_2024 + 400 * DAY, 2%float) ], Some g)
    /\ nth_error g 328 = Some (t_2024 + 364 * DAY, NaN)
    /\ nth_error g 329 = Some (t_2024 + 365 * DAY, 0%float)
    /\ Forall (fun p => isna (snd p) = true \/ snd p = 0%float) g.
Proof.
  pose (data := [ (t_2024, 2%float); (t_2024 + 400 * DAY, 2%float) ]).
  assert (E : get_real_data world_sparse "Key Interest Rates" 365
              = ret (Some (trim 365 data),
                     Some (trim 365 (yoy_formula (daily_grid data)))))
    by (vm_compute; reflexivity).
  destruct (growth_is_yoy_on_daily_grid world_sparse "Key Interest Rates" 365
              data _ _ eq_refl E) as [_ [_ [_ C]]].
  destruct (C 2%float eq_refl) as [g [Eg Hg]].
  - repeat constructor.
  - reflexivity.
  - assert (Eg' : trim 365 (yoy_formula (daily_grid data)) = g)
      by exact (f_equal (fun o => match o with Some y => y | None => g end) Eg).
    rewrite <- Eg' in Hg.
    exists (trim 365 (yoy_formula (daily_grid data))).
    split; [exact E | ].
    split; [vm_compute; reflexivity | ].
    split; [vm_compute; reflexivity | exact Hg].
Defined.

(** The scenario of the specification: a constant 2.0 over two years, asked
    for with a window of 365 days, gives 365 level points, all 2.0, and 365
    growth points, all 0.0. *)
Example key_interest_rates_constant :
  exists level growth,
    get_real_data world_two_years "Key Interest Rates" 365
    = ret (Some level, Some growth)
    /\ len level = 365
    /\ forallb (fun p => PrimFloat.eqb (snd p) 2%float) level = true
    /\ len growth = 365
    /\ forallb (fun p => PrimFloat.eqb (snd p) 0%float) growth = true
    /\ index growth = index level.
Proof.
  eexists. eexists. split; [vm_compute; reflexivity | ].
  repeat (split; [vm_compute; reflexivity | ]).
  vm_compute. reflexivity.
Qed.

(** * Further properties of the code *)

(** ** The change summary on a float series *)

Lemma last_map {A B} (f : A -> B) (l : list A) (d : A) :
  last (map f l) (f d) = f (last l d).
Proof.
  revert d. induction l as [ | a r IH]; intros d; [reflexivity | ].
  cbn [map]. rewrite !last_cons_default. apply IH.
Qed.

(** X1: on a series of floats [calculate_change] has four outcomes, decided
    by the first value [x] and the last value [y]: [None] for an empty series
    and for a NaN endpoint; [ZeroDivisionError] when neither is NaN and [x]
    is zero; [(y - x) / x * 100] otherwise. *)
Theorem calculate_change_float_series (float_of_str : string -> option float)
    (s : TimeSeries) :
  calculate_change float_of_str (to_pyval s)
  = match s with
    | [] => ret None
    | (_, x) :: r =>
        let y := last (values r) x in
        if isna x || isna y then ret None
        else if PrimFloat.eqb x 0%float then raise ZeroDivisionError
        else ret (Some (PrimFloat.mul
                          (PrimFloat.div (PrimFloat.sub y x) x) 100%float))
    end.
Proof.
  destruct s as [ | [t x] r]; [reflexivity | ].
  unfold calculate_change, to_pyval.
  cbn [values map snd isinstance_Series iloc_first iloc_last bind ret].
  change (map PyFloat (map snd r)) with (map PyFloat (values r)).
  rewrite (last_map PyFloat (values r) x).
  cbn [bind ret isinstance_Series_or_DataFrame py_float].
  destruct (isna x || isna (last (values r) x)); [reflexivity | ].
  unfold py_truediv.
  destruct (PrimFloat.eqb x 0%float); reflexivity.
Qed.

(** ** Which exceptions leave [calculate_change] *)

Section ChangeSummaryExceptions.

Variable float_of_str : string -> option float.






End ChangeSummaryExceptions.


(** ** The FRED credential *)

(** X3: a key in the environment that is not empty is the key used, whatever
    the secrets hold and also when reading the secrets would raise. *)
Theorem load_fred_api_key_env_first (key : string)
    (secrets_get : result (option string)) :
  key <> "" ->
  load_fred_api_key (Some key) secrets_get = ret key.
Proof.
  intros H. unfold load_fred_api_key. cbn [py_truthy_str].
  destruct (String.eqb_spec key "") as [E | _]; [contradiction | ].
  cbn. destruct (String.eqb_spec key "") as [E | _]; [contradiction | ].
  reflexivity.
Qed.

Lemma load_fred_api_key_env_first_witness :
  load_fred_api_key (Some "abcdef0123456789")
    (raise (OtherException "FileNotFoundError"))
  = ret "abcdef0123456789".
Proof.
  apply load_fred_api_key_env_first. discriminate.
Defined.

(** X4: the module never continues with an empty key.  When the secrets can
    be read, it raises [ValueError] exactly when the environment and the
    secrets both give nothing or the empty string; otherwise the key is the
    environment's if that is not empty, else the one of the secrets. *)
Theorem load_fred_api_key_cases (getenv secret : option string) :
  (forall secrets_get key,
      load_fred_api_key getenv secrets_get = ret key -> key <> "")
  /\ load_fred_api_key getenv (ret secret)
     = match getenv, secret with
       | Some (String c k), _ => ret (String c k)
       | _, Some (String c k) => ret (String c k)
       | _, _ => raise ValueError
       end.
Proof.
  split.
  - intros secrets_get key. unfold load_fred_api_key.
    destruct (if py_truthy_str getenv then ret getenv else secrets_get)
      as [e | [k | ]]; cbn; try discriminate.
    destruct (String.eqb_spec k "") as [E | N]; cbn; [discriminate | ].
    intros [= <-]. exact N.
  - destruct getenv as [[ | c k] | ], secret as [[ | c' k'] | ]; reflexivity.
Qed.

(** ** The window: selector options and edge values *)

Lemma get_real_data_bounded (W : World) (metric_name : string) (days : Z)
    (level growth : option TimeSeries) :
  1 <= days ->
  get_real_data W metric_name days = ret (level, growth) ->
  (forall s, level = Some s -> len s <= days)
  /\ (forall g, growth = Some g -> len g <= days).
Proof.
  intros Hd E.
  destruct (dispatch_returns W metric_name days) as [data H].
  rewrite (get_real_data_eq _ _ _ _ H) in E.
  destruct data as [data | ]; injection E as <- <-.
  - split.
    + intros s [= <-]. apply trim_len; assumption.
    + intros g Hg. destruct (yoy_or_none data) as [y | ]; [ | discriminate].
      injection Hg as <-. apply trim_len; assumption.
  - split; discriminate.
Qed.

(** X5: every option of the time-range selector has an entry in [days_map]
    (the lookup cannot raise [KeyError]), and with the number of days found
    there no series the resolver returns is longer than that number. *)
Theorem days_map_window (W : World) (time_range metric_name : string) :
  In time_range time_range_options ->
  exists days,
    getitem days_map time_range = ret days
    /\ forall level growth,
         get_real_data W metric_name days = ret (level, growth) ->
         (forall s, level = Some s -> len s <= days)
         /\ (forall g, growth = Some g -> len g <= days).
Proof.
  intros H. cbn in H.
  destruct H as [<- | [<- | [<- | []]]];
    eexists; (split; [reflexivity | ]);
    intros level growth; apply get_real_data_bounded; lia.
Qed.

Lemma days_map_window_witness :
  exists days,
    getitem days_map "2 Years" = ret days
    /\ forall level growth,
         get_real_data world_two_years "Key Interest Rates" days
         = ret (level, growth) ->
         (forall s, level = Some s -> len s <= days)
         /\ (forall g, growth = Some g -> len g <= days).
Proof.
  apply (days_map_window world_two_years "2 Years" "Key Interest Rates").
  cbn. tauto.
Defined.

(** X6: the cut has no effect for a window of 0 days ([iloc[-0:]] is the
    whole series), and for a negative window [-k] it drops the first [k]
    points instead of keeping the last ones: the bound of the requested
    window holds only from one day on. *)
Theorem get_real_data_window_edges (W : World) (metric_name : string)
    (days : Z) (data : TimeSeries) :
  dispatch W metric_name days = ret (Some data) ->
  days <= 0 ->
  get_real_data W metric_name days
  = ret (Some (skipn (Z.to_nat (- days)) data),
         option_map (skipn (Z.to_nat (- days))) (yoy_or_none data)).
Proof.
  intros H Hd. rewrite (get_real_data_eq _ _ _ _ H).
  assert (T : forall s, trim days s = skipn (Z.to_nat (- days)) s).
  { intros s. unfold trim, iloc_from.
    destruct (Z.gtb_spec (len s) days) as [G | G].
    - destruct (Z.ltb_spec (- days) 0) as [L | L]; [lia | ].
      destruct (Z.min_spec (- days) (len s)) as [[_ ->] | [Hle ->]];
        [reflexivity | ].
      unfold len in *.
      rewrite !skipn_all2 by lia. reflexivity.
    - unfold len in G. assert (days = 0) by lia. subst days.
      assert (List.length s = 0%nat) by lia.
      destruct s; [reflexivity | discriminate]. }
  rewrite T. destruct (yoy_or_none data) as [y | ]; cbn; [rewrite T | ];
    reflexivity.
Qed.

Lemma get_real_data_window_edges_witness :
  get_real_data world_sparse "Key Interest Rates" 0
  = ret (Some [ (t_2024, 2%float); (t_2024 + 400 * DAY, 2%float) ],
         yoy_or_none [ (t_2024, 2%float); (t_2024 + 400 * DAY, 2%float) ])
  /\ get_real_data world_sparse "Key Interest Rates" (-1)
     = ret (Some [ (t_2024 + 400 * DAY, 2%float) ],
            option_map (skipn 1)
              (yoy_or_none [ (t_2024, 2%float);
                             (t_2024 + 400 * DAY, 2%float) ])).
Proof.
  split.
  - apply (get_real_data_window_edges world_sparse "Key Interest Rates" 0
             [ (t_2024, 2%float); (t_2024 + 400 * DAY, 2%float) ]).
    + reflexivity.
    + lia.
  - apply (get_real_data_window_edges world_sparse "Key Interest Rates" (-1)
             [ (t_2024, 2%float); (t_2024 + 400 * DAY, 2%float) ]).
    + reflexivity.
    + lia.
Defined.

(** ** Empty answers *)

(** X7: when the series the chain leaves in [data] has no points, the
    resolver returns it as it is, together with a growth series without
    points: both are present and both are empty, for every window. *)
Theorem get_real_data_empty_series (W : World) (metric_name : string)
    (days : Z) :
  dispatch W metric_name days = ret (Some []) ->
  get_real_data W metric_name days = ret (Some [], Some []).
Proof.
  intros H. rewrite (get_real_data_eq _ _ _ _ H).
  unfold trim, iloc_from. cbn.
  destruct (0 >? days); destruct (- days <? 0);
    rewrite ?skipn_nil; reflexivity.
Qed.

Lemma get_real_data_empty_series_witness :
  get_real_data world_empty "Retail Sales" 365 = ret (Some [], Some []).
Proof.
  apply get_real_data_empty_series. reflexivity.
Defined.
(** ** What the retrieval helpers hand back *)

Lemma ffill_from_nth_valid (o : option float) (s : TimeSeries) (k : nat)
    (t : Timestamp) (v : float) :
  nth_error s k = Some (t, v) -> isna v = false ->
  nth_error (ffill_from o s) k = Some (t, v).
Proof.
  revert o k. induction s as [ | [u w] r IH]; intros o k H Hv.
  - destruct k; discriminate.
  - destruct k as [ | k]; cbn in H |- *.
    + injection H as -> ->. rewrite Hv. reflexivity.
    + destruct (isna w); cbn; apply IH; assumption.
Qed.

Lemma lookup_ffill_from_valid (o : option float) (s : TimeSeries)
    (t : Timestamp) (v : float) :
  lookup t s = Some v -> isna v = false ->
  lookup t (ffill_from o s) = Some v.
Proof.
  revert o. induction s as [ | [u w] r IH]; intros o H Hv; [discriminate | ].
  cbn in H |- *.
  destruct (Z.eqb_spec t u) as [-> | N].
  - injection H as ->. rewrite Hv. cbn. rewrite Z.eqb_refl. reflexivity.
  - destruct (isna w); cbn;
      (destruct (Z.eqb_spec t u) as [E | _]; [contradiction | ]);
      apply IH; assumption.
Qed.

(** X8: when the FRED call returns a series, [get_fred_data] returns a
    series on the same dates; every value of the provider that is not NaN
    stays where it is, and after the first such value the series has no NaN
    any more (leading NaNs stay). *)
Theorem get_fred_data_forward_filled (W : World) (series_id : string)
    (days : Z) (raw : TimeSeries) :
  fred_get_series W series_id (start_date W days) (now W) = ret raw ->
  exists s,
    get_fred_data W series_id days = ret (Some s)
    /\ index s = index raw
    /\ nan_prefix_only (values s) = true
    /\ forall k t v,
         nth_error raw k = Some (t, v) -> isna v = false ->
         nth_error s k = Some (t, v).
Proof.
  intros H. exists (fillna_ffill raw).
  split; [apply get_fred_data_success; exact H | ].
  split; [apply ffill_from_index | ].
  split; [apply fillna_ffill_nan_prefix | ].
  intros k t v. apply ffill_from_nth_valid.
Qed.

Lemma get_fred_data_forward_filled_witness :
  exists s,
    get_fred_data world_yields "BAA" 90 = ret (Some s)
    /\ index s = [ t_2024; t_2024 + 31 * DAY ]
    /\ nan_prefix_only (values s) = true
    /\ forall k t v,
         nth_error [ (t_2024, 6%float); (t_2024 + 31 * DAY, 7%float) ] k
         = Some (t, v) ->
         isna v = false ->
         nth_error s k = Some (t, v).
Proof.
  apply (get_fred_data_forward_filled world_yields "BAA" 90
           [ (t_2024, 6%float); (t_2024 + 31 * DAY, 7%float) ]).
  reflexivity.
Defined.

Lemma increasing_from_insert_label (lo t : Timestamp) (l : list Timestamp) :
  increasing_from lo l = true -> lo < t ->
  increasing_from lo (insert_label t l) = true.
Proof.
  revert lo. induction l as [ | u r IH]; intros lo H Hlt; cbn.
  - rewrite andb_true_r. apply Z.ltb_lt. exact Hlt.
  - cbn in H. apply andb_true_iff in H as [H1 H2].
    destruct (Z.ltb_spec t u) as [L | L].
    + cbn. rewrite H2, andb_true_r.
      apply andb_true_iff. split; apply Z.ltb_lt; assumption.
    + destruct (Z.eqb_spec t u) as [E | N].
      * cbn. rewrite H1, H2. reflexivity.
      * cbn. rewrite H1. cbn. apply IH; [exact H2 | ].
        unfold Timestamp in *. lia.
Qed.

Lemma increasing_insert_label (t : Timestamp) (l : list Timestamp) :
  increasing l = true -> increasing (insert_label t l) = true.
Proof.
  destruct l as [ | u r]; [reflexivity | ].
  cbn [increasing insert_label]. intros H.
  destruct (Z.ltb_spec t u) as [L | L].
  - cbn. rewrite H, andb_true_r. apply Z.ltb_lt. exact L.
  - destruct (Z.eqb_spec t u) as [E | N]; [exact H | ].
    cbn [increasing]. apply increasing_from_insert_label; [exact H | ].
    unfold Timestamp in *. lia.
Qed.

(** The union of two indexes is always in increasing order. *)
Lemma increasing_union_index (a b : list Timestamp) :
  increasing (union_index a b) = true.
Proof.
  unfold union_index. induction (a ++ b) as [ | t l IH]; [reflexivity | ].
  cbn [fold_right]. apply increasing_insert_label. exact IH.
Qed.

(** X9: when both downloads return series with increasing dates,
    [get_ratio_data] returns a series on the union of their dates, in
    increasing order, and at a date both have its value is the numerator's
    close divided by the denominator's, unless that quotient is NaN. *)
Theorem get_ratio_data_quotient (W : World)
    (numerator_ticker denominator_ticker : string) (days : Z)
    (numerator denominator : TimeSeries) :
  yf_download_close W numerator_ticker (start_date W days) (now W)
  = ret numerator ->
  yf_download_close W denominator_ticker (start_date W days) (now W)
  = ret denominator ->
  increasing (index numerator) = true ->
  increasing (index denominator) = true ->
  exists ratio,
    get_ratio_data W numerator_ticker denominator_ticker days
    = ret (Some ratio)
    /\ index ratio = union_index (index numerator) (index denominator)
    /\ increasing (index ratio) = true
    /\ forall t x y,
         lookup t numerator = Some x ->
         lookup t denominator = Some y ->
         isna (PrimFloat.div x y) = false ->
         lookup t ratio = Some (PrimFloat.div x y).
Proof.
  intros Hn Hd _ _.
  exists (fillna_ffill (series_div numerator denominator)).
  assert (I : index (fillna_ffill (series_div numerator denominator))
              = union_index (index numerator) (index denominator)).
  { unfold fillna_ffill. rewrite ffill_from_index. apply align_binop_index. }
  split.
  - unfold get_ratio_data. cbv zeta.
    fold (start_date W days). rewrite Hn. cbn [bind]. rewrite Hd. reflexivity.
  - split; [exact I | ]. split.
    + rewrite I. apply increasing_union_index.
    + intros t x y Hx Hy Hq. apply lookup_ffill_from_valid; [ | exact Hq].
      apply align_binop_lookup; assumption.
Qed.

Lemma get_ratio_data_quotient_witness :
  exists ratio,
    get_ratio_data world_futures "HG=F" "GC=F" 365 = ret (Some ratio)
    /\ index ratio
       = [ t_2024; t_2024 + DAY; t_2024 + 2 * DAY; t_2024 + 3 * DAY ]
    /\ lookup (t_2024 + 2 * DAY) ratio = Some 2.5%float.
Proof.
  destruct (get_ratio_data_quotient world_futures "HG=F" "GC=F" 365
              [ (t_2024, 8%float); (t_2024 + DAY, 9%float);
                (t_2024 + 2 * DAY, 10%float) ]
              [ (t_2024, 2%float); (t_2024 + 2 * DAY, 4%float);
                (t_2024 + 3 * DAY, 5%float) ]
              eq_refl eq_refl eq_refl eq_refl) as [ratio [E [I [_ Q]]]].
  exists ratio. split; [exact E | ]. split; [exact I | ].
  apply (Q (t_2024 + 2 * DAY) 10%float 4%float); reflexivity.
Defined.

(** ** The definitions shown and the series fetched *)

(** X10: for each of the thirteen metrics fetched from FRED, the resolver
    asks for the series whose identifier the definition text of the metric
    names as "(FRED: id)"; and "VIX Index" is fetched as the ticker [^VIX]
    its definition names. *)
Theorem definitions_name_the_series (W : World) (days : Z) :
  Forall (fun p =>
            dispatch W (fst p) days = get_fred_data W (snd p) days
            /\ exists text,
                 getitem METRIC_DEFINITIONS (fst p) = ret text
                 /\ contains ("(FRED: " ++ snd p ++ ")") text = true)
         fred_metrics
  /\ dispatch W "VIX Index" days = get_market_data W "^VIX" days
  /\ exists text,
       getitem METRIC_DEFINITIONS "VIX Index" = ret text
       /\ contains "(^VIX)" text = true.
Proof.
  split.
  - unfold fred_metrics.
    repeat (constructor;
            [split; [reflexivity
                    | eexists; split; [reflexivity | vm_compute; reflexivity]]
            | ]).
    constructor.
  - split; [reflexivity | ].
    eexists. split; [reflexivity | vm_compute; reflexivity].
Qed.
(** ** Growth over a short history *)

(** A point of the growth series computed from [data], before trimming: it
    is [k] days after the first label, not after the last one, and NaN for
    [k] below 365. *)
Lemma growth_point (t0 : Timestamp) (v0 : float) (r : TimeSeries)
    (t : Timestamp) (v : float) :
  let data := (t0, v0) :: r in
  In (t, v) (series_scale 100%float (pct_change 365 (daily_grid data))) ->
  exists k : nat,
    t = t0 + Z.of_nat k * DAY
    /\ t <= last (index data) t0
    /\ ((k < 365)%nat -> isna v = true).
Proof.
  intros data Hin. apply In_nth_error in Hin as [k Hk].
  unfold series_scale in Hk.
  rewrite nth_error_map, nth_error_pct_change in Hk.
  destruct (nth_error (fillna_ffill (daily_grid data)) k) as [[t' x] | ] eqn:Ep;
    [ | discriminate].
  cbn [option_map fst snd] in Hk. injection Hk as -> <-.
  assert (Ht : nth_error (index (daily_grid data)) k = Some t).
  { unfold fillna_ffill in Ep.
    rewrite <- (ffill_from_index None (daily_grid data)).
    unfold index. rewrite nth_error_map, Ep. reflexivity. }
  unfold data in Ht. rewrite daily_grid_index in Ht.
  apply nth_error_date_range in Ht as [Et [_ Hr]].
  exists k. split; [exact Et | ]. split; [exact Hr | ].
  intros L. apply Nat.ltb_lt in L. rewrite L. rewrite div_NaN. reflexivity.
Qed.

(** X11: when the fetched series (dates increasing) spans less than 365
    days, the growth series is present and every one of its values is
    NaN. *)
Theorem growth_all_nan_within_first_year (W : World) (metric_name : string)
    (days : Z) (data : TimeSeries) (t0 : Timestamp) :
  dispatch W metric_name days = ret (Some data) ->
  increasing (index data) = true ->
  hd_error (index data) = Some t0 ->
  last (index data) t0 < t0 + 365 * DAY ->
  exists growth,
    get_real_data W metric_name days
    = ret (Some (trim days data), Some growth)
    /\ Forall (fun p => isna (snd p) = true) growth.
Proof.
  intros Hd Hinc Hhd Hspan.
  rewrite (get_real_data_eq _ _ _ _ Hd).
  unfold yoy_or_none. rewrite (asfreq_D_ffill_increasing _ Hinc).
  eexists. split; [reflexivity | ].
  apply Forall_forall. intros [t v] Hin. apply In_trim in Hin.
  destruct data as [ | [u v0] r]; [discriminate | ].
  cbn in Hhd. injection Hhd as ->.
  apply growth_point in Hin as [k [Et [Hle Hnan]]].
  cbn [snd]. apply Hnan. pose proof DAY_pos.
  unfold Timestamp in *. nia.
Qed.

Lemma growth_all_nan_within_first_year_witness :
  exists growth,
    get_real_data world_yields "Key Interest Rates" 365
    = ret (Some [ (t_2024, 4%float); (t_2024 + DAY, 5%float) ], Some growth)
    /\ Forall (fun p => isna (snd p) = true) growth.
Proof.
  apply (growth_all_nan_within_first_year world_yields "Key Interest Rates"
           365 [ (t_2024, 4%float); (t_2024 + DAY, 5%float) ] t_2024);
    reflexivity.
Defined.
(** ** The cache in front of the resolver *)

Lemma key_eqb_eq (a b : string * Z) : key_eqb a b = true <-> a = b.
Proof.
  destruct a as [m d], b as [m' d']. unfold key_eqb. cbn.
  rewrite andb_true_iff, String.eqb_eq, Z.eqb_eq.
  split; [intros [-> ->]; reflexivity | intros [= -> ->]; auto].
Qed.

Lemma key_eqb_refl (k : string * Z) : key_eqb k k = true.
Proof. apply key_eqb_eq. reflexivity. Qed.

Lemma cache_get_put_same (k : string * Z) (e : CacheEntry) (c : Cache) :
  cache_get k (cache_put k e c) = Some e.
Proof. unfold cache_put. cbn. rewrite key_eqb_refl. reflexivity. Qed.

Lemma cache_get_put_other (k k' : string * Z) (e : CacheEntry) (c : Cache) :
  k' <> k -> cache_get k' (cache_put k e c) = cache_get k' c.
Proof.
  intros N. unfold cache_put. cbn [cache_get].
  destruct (key_eqb k' k) eqn:E; [apply key_eqb_eq in E; contradiction | ].
  induction c as [ | [k0 e0] r IH]; [reflexivity | ].
  cbn [filter fst]. destruct (key_eqb k k0) eqn:E0; cbn [negb cache_get].
  - apply key_eqb_eq in E0. subst k0. rewrite E. exact IH.
  - rewrite IH. reflexivity.
Qed.

(** A call that goes through to the resolver stores what it returned. *)
Lemma fetch_data_miss (W : World) (c : Cache) (metric_name : string)
    (days : Z) :
  cache_get (metric_name, days) c = None
  \/ (exists e, cache_get (metric_name, days) c = Some e
                /\ stored_at e + TTL <= now W) ->
  exists r,
    get_real_data W metric_name days = ret r
    /\ fetch_data W c metric_name days
       = (ret r,
          cache_put (metric_name, days)
            {| stored_at := now W; cached_value := r |} c).
Proof.
  intros H.
  destruct (get_real_data_returns W metric_name days) as [level [growth E]].
  exists (level, growth). split; [exact E | ].
  unfold fetch_data. rewrite E.
  destruct H as [-> | [e [-> Hold]]]; [reflexivity | ].
  destruct (Z.ltb_spec (now W) (stored_at e + TTL)) as [L | L];
    [unfold Timestamp in *; lia | reflexivity].
Qed.

Lemma fetch_data_returns (W : World) (c : Cache) (metric_name : string)
    (days : Z) :
  exists r c', fetch_data W c metric_name days = (ret r, c').
Proof.
  unfold fetch_data.
  destruct (get_real_data_returns W metric_name days) as [level [growth E]].
  rewrite E.
  destruct (cache_get (metric_name, days) c) as [e | ];
    [destruct (now W <? stored_at e + TTL) | ];
    do 2 eexists; reflexivity.
Qed.

(** X12: a call of [fetch_data] that finds no entry, or only one as old as
    the time to live, returns what the resolver returns now; and from then
    on, until an hour after that call, every call for the same metric and
    window returns that same pair, whatever the providers would answer by
    then.  The pair of two absent series of a failed retrieval is kept like
    any other. *)
Theorem fetch_data_served_from_cache (W W' : World) (c : Cache)
    (metric_name : string) (days : Z) :
  cache_get (metric_name, days) c = None
  \/ (exists e, cache_get (metric_name, days) c = Some e
                /\ stored_at e + TTL <= now W) ->
  now W' < now W + TTL ->
  exists r c',
    get_real_data W metric_name days = ret r
    /\ fetch_data W c metric_name days = (ret r, c')
    /\ fetch_data W' c' metric_name days = (ret r, c').
Proof.
  intros H Hnow.
  destruct (fetch_data_miss W c metric_name days H) as [r [E F]].
  exists r. eexists. split; [exact E | ]. split; [exact F | ].
  unfold fetch_data. rewrite cache_get_put_same. cbn [stored_at cached_value].
  apply Z.ltb_lt in Hnow. rewrite Hnow. reflexivity.
Qed.

Lemma fetch_data_served_from_cache_witness :
  exists c',
    fetch_data world_down [] "Key Interest Rates" 10 = (ret (None, None), c')
    /\ fetch_data world_daily c' "Key Interest Rates" 10
       = (ret (None, None), c').
Proof.
  destruct (fetch_data_served_from_cache world_down world_daily []
              "Key Interest Rates" 10 (or_introl eq_refl) eq_refl)
    as [r [c' [E [F G]]]].
  exists c'.
  assert (R : r = (None, None)).
  { vm_compute in E. injection E as <-. reflexivity. }
  rewrite R in F, G. split; assumption.
Defined.

(** X13: a call of [fetch_data] touches no entry but the one of its own
    metric and window: the entries of other metrics, and of the same metric
    for another window, are served as before. *)
Theorem fetch_data_other_entries (W : World) (c : Cache)
    (metric_name : string) (days : Z) (k : string * Z) :
  k <> (metric_name, days) ->
  cache_get k (snd (fetch_data W c metric_name days)) = cache_get k c.
Proof.
  intros N. unfold fetch_data.
  destruct (get_real_data W metric_name days) as [e | v].
  - destruct (cache_get (metric_name, days) c) as [e0 | ]; [ | reflexivity].
    destruct (now W <? stored_at e0 + TTL); reflexivity.
  - destruct (cache_get (metric_name, days) c) as [e0 | ];
      [destruct (now W <? stored_at e0 + TTL); [reflexivity | ] | ];
      cbn [snd]; apply cache_get_put_other; exact N.
Qed.

Lemma fetch_data_other_entries_witness :
  cache_get ("Key Interest Rates", 365)
    (snd (fetch_data world_daily
            [ (("Key Interest Rates", 365),
               {| stored_at := t_now; cached_value := (None, None) |}) ]
            "Key Interest Rates" 730))
  = Some {| stored_at := t_now; cached_value := (None, None) |}.
Proof.
  rewrite (fetch_data_other_entries world_daily
             [ (("Key Interest Rates", 365),
                {| stored_at := t_now; cached_value := (None, None) |}) ]
             "Key Interest Rates" 730 ("Key Interest Rates", 365)).
  - reflexivity.
  - discriminate.
Defined.

(** X14: with the refresh button pressed and one of the options of the
    selector picked, the run does not depend on what the cache held: it is
    the run on an empty cache, with the same result, page and cache at the
    end. *)
Theorem run_script_refresh (W : World)
    (float_of_str : string -> option float) (format_2f : float -> string)
    (time_range : string) (c : Cache) (p : list widget) :
  In time_range time_range_options ->
  run_script W float_of_str format_2f time_range true
    {| cache := c; page := p |}
  = run_script W float_of_str format_2f time_range true
      {| cache := []; page := p |}.
Proof.
  intros H. cbn in H.
  destruct H as [<- | [<- | [<- | []]]]; reflexivity.
Qed.

Lemma run_script_refresh_witness :
  run_script world_down (fun _ => None) format_stub "5 Years" true
    {| cache := [ (("VIX Index", 1825),
                   {| stored_at := t_now;
                      cached_value := (Some [ (t_2024, 3%float) ], None) |}) ];
       page := [] |}
  = run_script world_down (fun _ => None) format_stub "5 Years" true
      {| cache := []; page := [] |}.
Proof.
  apply run_script_refresh. cbn. tauto.
Defined.
(** ** One metric on the page *)

Lemma calculate_change_divides_by_zero (float_of_str : string -> option float)
    (s : TimeSeries) :
  divides_by_zero s = true ->
  calculate_change float_of_str (to_pyval s) = raise ZeroDivisionError.
Proof.
  destruct s as [ | [t x] r]; [discriminate | ].
  unfold divides_by_zero, calculate_change, to_pyval.
  cbn [values map snd isinstance_Series iloc_first iloc_last bind ret].
  change (map PyFloat (map snd r)) with (map PyFloat (values r)).
  rewrite (last_map PyFloat (values r) x).
  cbn [bind ret isinstance_Series_or_DataFrame py_float].
  intros H. apply andb_true_iff in H as [Hn Hz].
  apply negb_true_iff in Hn. rewrite Hn.
  unfold py_truediv. rewrite Hz. reflexivity.
Qed.

Lemma calculate_change_safe (float_of_str : string -> option float)
    (s : TimeSeries) :
  divides_by_zero s = false ->
  exists pct_change,
    calculate_change float_of_str (to_pyval s) = ret pct_change.
Proof.
  destruct s as [ | [t x] r]; [intros _; eexists; reflexivity | ].
  unfold divides_by_zero, calculate_change, to_pyval.
  cbn [values map snd isinstance_Series iloc_first iloc_last bind ret].
  change (map PyFloat (map snd r)) with (map PyFloat (values r)).
  rewrite (last_map PyFloat (values r) x).
  cbn [bind ret isinstance_Series_or_DataFrame py_float].
  destruct (isna x || isna (last (values r) x));
    [intros _; eexists; reflexivity | ].
  unfold py_truediv. cbn [negb andb].
  intros ->. eexists. reflexivity.
Qed.

Section PageFacts.

Variable W : World.
Variable float_of_str : string -> option float.
Variable format_2f : float -> string.

(** What [render_metric] does, from the definition found and the pair
    fetched. *)
Lemma render_metric_eq (tab : string) (col : nat) (metric : string) (days : Z)
    (s : Session) (definition : string) (level growth : option TimeSeries)
    (c' : Cache) :
  getitem METRIC_DEFINITIONS metric = ret definition ->
  fetch_data W (cache s) metric days = (ret (level, growth), c') ->
  let top := [ Subheader tab col metric;
               Markdown tab col ("*" ++ definition ++ "*") ] in
  let error :=
    ErrorBox tab col "Unable to fetch data for this metric" in
  render_metric W float_of_str format_2f tab col metric days s
  = match level with
    | Some data =>
        if series_empty data
        then (ret tt, {| cache := c'; page := page s ++ top ++ [error] |})
        else
          match calculate_change float_of_str (to_pyval data) with
          | inl e => (raise e, {| cache := c'; page := page s ++ top |})
          | inr pct_change =>
              (ret tt,
               {| cache := c';
                  page := page s ++ top
                          ++ match pct_change with
                             | Some pct =>
                                 [ Markdown tab col (change_label format_2f pct) ]
                             | None => []
                             end
                          ++ [ PlotlyChart tab col
                                 (create_dual_axis_plot data growth metric) ] |})
          end
    | None => (ret tt, {| cache := c'; page := page s ++ top ++ [error] |})
    end.
Proof.
  intros Hdef Hfetch top error.
  unfold render_metric, ui_bind, emit, lift, fetch, ui_ret.
  cbn [cache page]. rewrite Hdef, Hfetch. unfold ret, raise.
  cbn [fst snd cache page].
  destruct level as [data | ].
  - destruct (series_empty data); cbn [negb]; cbv beta iota.
    + cbn [cache page]. rewrite <- !app_assoc. reflexivity.
    + destruct (calculate_change float_of_str (to_pyval data))
        as [e | [pct | ]]; cbv beta iota; cbn [cache page];
        rewrite <- ?app_assoc; reflexivity.
  - cbv beta iota. cbn [cache page]. rewrite <- !app_assoc. reflexivity.
Qed.

(** X15: when the level series fetched for a metric is absent or has no
    points, the column shows the sub-header, the definition and the error
    box, nothing is computed from the series, and the run goes on. *)
Theorem render_metric_unavailable (tab : string) (col : nat)
    (metric : string) (days : Z) (s : Session) (definition : string)
    (level growth : option TimeSeries) (c' : Cache) :
  getitem METRIC_DEFINITIONS metric = ret definition ->
  fetch_data W (cache s) metric days = (ret (level, growth), c') ->
  level = None \/ level = Some [] ->
  render_metric W float_of_str format_2f tab col metric days s
  = (ret tt,
     {| cache := c';
        page := page s
                ++ [ Subheader tab col metric;
                     Markdown tab col ("*" ++ definition ++ "*");
                     ErrorBox tab col "Unable to fetch data for this metric" ]
     |}).
Proof.
  intros Hdef Hfetch H.
  rewrite (render_metric_eq tab col metric days s _ _ _ _ Hdef Hfetch).
  destruct H as [-> | ->]; reflexivity.
Qed.

(** X16: when the level series fetched starts with zero and neither its
    first nor its last value is NaN, the run ends there with
    [ZeroDivisionError]: the column has its sub-header and definition, the
    chart of the metric is not shown and nothing after it is. *)
Theorem render_metric_division_by_zero (tab : string) (col : nat)
    (metric : string) (days : Z) (s : Session) (definition : string)
    (data : TimeSeries) (growth : option TimeSeries) (c' : Cache) :
  getitem METRIC_DEFINITIONS metric = ret definition ->
  fetch_data W (cache s) metric days = (ret (Some data, growth), c') ->
  divides_by_zero data = true ->
  render_metric W float_of_str format_2f tab col metric days s
  = (raise ZeroDivisionError,
     {| cache := c';
        page := page s
                ++ [ Subheader tab col metric;
                     Markdown tab col ("*" ++ definition ++ "*") ] |}).
Proof.
  intros Hdef Hfetch H.
  rewrite (render_metric_eq tab col metric days s _ _ _ _ Hdef Hfetch).
  destruct data as [ | p r]; [discriminate | ]. cbn [series_empty].
  rewrite (calculate_change_divides_by_zero float_of_str _ H). reflexivity.
Qed.

(** X17: when the level series fetched has points and does not divide by
    zero, the column shows sub-header, definition, the change label when
    both end values are numbers, and the chart, whose second trace is there
    exactly when the growth series is present. *)
Theorem render_metric_chart (tab : string) (col : nat)
    (metric : string) (days : Z) (s : Session) (definition : string)
    (data : TimeSeries) (growth : option TimeSeries) (c' : Cache) :
  getitem METRIC_DEFINITIONS metric = ret definition ->
  fetch_data W (cache s) metric days = (ret (Some data, growth), c') ->
  data <> [] ->
  divides_by_zero data = false ->
  exists pct_change fig,
    calculate_change float_of_str (to_pyval data) = ret pct_change
    /\ render_metric W float_of_str format_2f tab col metric days s
       = (ret tt,
          {| cache := c';
             page := page s
                     ++ [ Subheader tab col metric;
                          Markdown tab col ("*" ++ definition ++ "*") ]
                     ++ match pct_change with
                        | Some pct =>
                            [ Markdown tab col (change_label format_2f pct) ]
                        | None => []
                        end
                     ++ [ PlotlyChart tab col fig ] |})
    /\ List.length (fig_traces fig)
       = match growth with Some _ => 2%nat | None => 1%nat end
    /\ (pct_change = None <->
        isna (snd (hd (0, NaN) data)) || isna (last (values data) NaN) = true).
Proof.
  intros Hdef Hfetch Hne Hsafe.
  destruct (calculate_change_safe float_of_str data Hsafe) as [pct Hc].
  exists pct, (create_dual_axis_plot data growth metric).
  split; [exact Hc | ]. split; [ | split].
  - rewrite (render_metric_eq tab col metric days s _ _ _ _ Hdef Hfetch).
    destruct data as [ | p r]; [contradiction | ]. cbn [series_empty].
    rewrite Hc. reflexivity.
  - destruct growth; reflexivity.
  - destruct data as [ | [t x] r]; [contradiction | ].
    revert Hc. unfold calculate_change, to_pyval.
    cbn [values map snd isinstance_Series iloc_first iloc_last bind ret hd].
    change (map PyFloat (map snd r)) with (map PyFloat (values r)).
    rewrite (last_map PyFloat (values r) x).
    cbn [bind ret isinstance_Series_or_DataFrame py_float].
    change (x :: map snd r) with (x :: values r).
    rewrite (last_cons_default x NaN (values r)).
    destruct (isna x || isna (last (values r) x)).
    + cbn. intros [= <-]. tauto.
    + unfold py_truediv. destruct (PrimFloat.eqb x 0%float); cbn;
        [discriminate | ].
      intros [= <-]. split; discriminate.
Qed.

End PageFacts.

Lemma render_metric_unavailable_witness :
  exists c' definition,
    render_metric world_down (fun _ => None) format_stub
      "Market" 1 "Market Breadth" 365 {| cache := []; page := [] |}
    = (ret tt,
       {| cache := c';
          page := [ Subheader "Market" 1 "Market Breadth";
                    Markdown "Market" 1 ("*" ++ definition ++ "*");
                    ErrorBox "Market" 1 "Unable to fetch data for this metric" ]
       |}).
Proof.
  eexists. eexists.
  eapply (render_metric_unavailable world_down (fun _ => None) format_stub
            "Market" 1 "Market Breadth" 365 {| cache := []; page := [] |}).
  - reflexivity.
  - vm_compute. reflexivity.
  - left. reflexivity.
Defined.

Lemma render_metric_division_by_zero_witness :
  exists c' definition,
    render_metric world_zero_rate (fun _ => None) format_stub
      "Interest Rate" 0 "Key Interest Rates" 365 {| cache := []; page := [] |}
    = (raise ZeroDivisionError,
       {| cache := c';
          page := [ Subheader "Interest Rate" 0 "Key Interest Rates";
                    Markdown "Interest Rate" 0 ("*" ++ definition ++ "*") ]
       |}).
Proof.
  eexists. eexists.
  eapply (render_metric_division_by_zero world_zero_rate (fun _ => None)
            format_stub "Interest Rate" 0 "Key Interest Rates" 365
            {| cache := []; page := [] |}).
  - reflexivity.
  - vm_compute. reflexivity.
  - reflexivity.
Defined.

Lemma render_metric_chart_witness :
  exists pct_change fig,
    calculate_change (fun _ => None)
      (to_pyval [ (t_2024, 4%float); (t_2024 + DAY, 5%float) ])
    = ret pct_change
    /\ pct_change = Some 25%float
    /\ List.length (fig_traces fig) = 2%nat
    /\ fst (render_metric world_yields (fun _ => None) format_stub
              "Interest Rate" 0 "Key Interest Rates" 365
              {| cache := []; page := [] |})
       = ret tt.
Proof.
  destruct (render_metric_chart world_yields (fun _ => None) format_stub
              "Interest Rate" 0 "Key Interest Rates" 365
              {| cache := []; page := [] |}
              "Federal Funds Rate (FRED: DFF) - The interest rate at which banks lend money to each other overnight."
              [ (t_2024, 4%float); (t_2024 + DAY, 5%float) ]
              (yoy_or_none [ (t_2024, 4%float); (t_2024 + DAY, 5%float) ])
              (cache_put ("Key Interest Rates", 365)
                 {| stored_at := t_now;
                    cached_value :=
                      (Some [ (t_2024, 4%float); (t_2024 + DAY, 5%float) ],
                       yoy_or_none [ (t_2024, 4%float);
                                     (t_2024 + DAY, 5%float) ]) |} []))
    as [pct [fig [Hc [Hr [Hf _]]]]].
  - reflexivity.
  - vm_compute. reflexivity.
  - discriminate.
  - reflexivity.
  - exists pct, fig. split; [exact Hc | ].
    split; [ | split].
    + vm_compute in Hc. injection Hc as <-. reflexivity.
    + exact Hf.
    + rewrite Hr. reflexivity.
Defined.

(** ** A whole tab, and the whole page *)

Lemma ui_bind_ok {A B} (c : UI A) (k : A -> UI B) (s s' : Session) (a : A) :
  c s = (ret a, s') -> ui_bind c k s = k a s'.
Proof. intros H. unfold ui_bind. rewrite H. reflexivity. Qed.

Lemma subheaders_app (a b : list widget) :
  subheaders (a ++ b) = subheaders a ++ subheaders b.
Proof. apply flat_map_app. Qed.

Lemma headers_app (a b : list widget) :
  headers (a ++ b) = headers a ++ headers b.
Proof. apply flat_map_app. Qed.

Lemma outcomes_app (a b : list widget) :
  outcomes (a ++ b) = (outcomes a + outcomes b)%nat.
Proof. unfold outcomes. rewrite filter_app, length_app. reflexivity. Qed.

Lemma cache_get_In (k : string * Z) (c : Cache) (e : CacheEntry) :
  cache_get k c = Some e -> exists k', In (k', e) c.
Proof.
  induction c as [ | [k0 e0] r IH]; cbn; [discriminate | ].
  destruct (key_eqb k k0).
  - intros [= ->]. exists k0. left. reflexivity.
  - intros H. destruct (IH H) as [k' I]. exists k'. right. exact I.
Qed.

Lemma fetch_data_safe (W : World) (days : Z) (c c' : Cache)
    (metric_name : string) (r : RetrievalResult) :
  world_safe W days -> cache_safe c ->
  fetch_data W c metric_name days = (ret r, c') ->
  safe_level (fst r) /\ cache_safe c'.
Proof.
  intros HW Hc. unfold fetch_data.
  assert (Call : match get_real_data W metric_name days with
                 | inr v =>
                     (ret v,
                      cache_put (metric_name, days)
                        {| stored_at := now W; cached_value := v |} c)
                 | inl e => (raise e, c)
                 end = (ret r, c') ->
                 safe_level (fst r) /\ cache_safe c').
  { destruct (get_real_data W metric_name days) as [e | v] eqn:E;
      [discriminate | ].
    intros [= <- <-]. pose proof (HW _ _ E) as Hv.
    split; [exact Hv | ].
    unfold cache_put, cache_safe. constructor; [exact Hv | ].
    apply Forall_forall. intros p Hp. apply filter_In in Hp as [Hp _].
    unfold cache_safe in Hc. rewrite Forall_forall in Hc. apply Hc. exact Hp. }
  destruct (cache_get (metric_name, days) c) as [e | ] eqn:G; [ | exact Call].
  destruct (now W <? stored_at e + TTL); [ | exact Call].
  intros [= <- <-]. split; [ | exact Hc].
  destruct (cache_get_In _ _ _ G) as [k' I].
  unfold cache_safe in Hc. rewrite Forall_forall in Hc.
  apply (Hc (k', e) I).
Qed.

Section PageRuns.

Variable W : World.
Variable float_of_str : string -> option float.
Variable format_2f : float -> string.
Variable days : Z.

Hypothesis world_is_safe : world_safe W days.

(** A column whose metric has a definition and whose level series does not
    divide by zero: one sub-header, and a chart or an error box. *)
Lemma render_metric_safe (tab : string) (col : nat) (metric : string)
    (s : Session) :
  (exists d, getitem METRIC_DEFINITIONS metric = ret d) ->
  cache_safe (cache s) ->
  exists s' ws,
    render_metric W float_of_str format_2f tab col metric days s = (ret tt, s')
    /\ page s' = page s ++ ws
    /\ subheaders ws = [(col, metric)]
    /\ headers ws = []
    /\ outcomes ws = 1%nat
    /\ cache_safe (cache s').
Proof.
  intros [d Hdef] Hc.
  destruct (fetch_data_returns W (cache s) metric days) as [[level growth] [c' F]].
  destruct (fetch_data_safe _ _ _ _ _ _ world_is_safe Hc F) as [Hl Hc'].
  rewrite (render_metric_eq W float_of_str format_2f tab col metric days s
             _ _ _ _ Hdef F).
  destruct level as [data | ].
  - destruct (series_empty data) eqn:Ee.
    + do 2 eexists. split; [reflexivity | ].
      cbn [page cache]. split; [reflexivity | ]. repeat split. exact Hc'.
    + cbn in Hl.
      destruct (calculate_change_safe float_of_str data Hl) as [pct ->].
      do 2 eexists. split; [reflexivity | ].
      cbn [page cache]. split; [reflexivity | ].
      destruct pct; repeat split; exact Hc'.
  - do 2 eexists. split; [reflexivity | ].
    cbn [page cache]. split; [reflexivity | ]. repeat split. exact Hc'.
Qed.

(** The body of the loop over the rows of a tab. *)
Let row (category : string) (metrics : list string) (i : nat) : UI unit :=
  metric <~ lift (list_getitem metrics i) ;;
  _ <~ render_metric W float_of_str format_2f category 0 metric days ;;
  if (i + 1 <? List.length metrics)%nat then
    metric <~ lift (list_getitem metrics (i + 1)) ;;
    render_metric W float_of_str format_2f category 1 metric days
  else ui_ret tt.

Lemma rows_from (category : string) (metrics : list string) :
  Forall (fun m => exists d, getitem METRIC_DEFINITIONS m = ret d) metrics ->
  forall (n a : nat) (s : Session),
    cache_safe (cache s) ->
    n = Nat.div2 (List.length (skipn (2 * a) metrics) + 1) ->
    exists s' ws,
      for_each (map (fun k => (2 * k)%nat) (seq a n)) (row category metrics) s
      = (ret tt, s')
      /\ page s' = page s ++ ws
      /\ subheaders ws = in_columns 0 (skipn (2 * a) metrics)
      /\ headers ws = []
      /\ outcomes ws = List.length (skipn (2 * a) metrics)
      /\ cache_safe (cache s').
Proof.
  intros Hdefs. rewrite Forall_forall in Hdefs.
  induction n as [ | n IH]; intros a s Hc Hn.
  - exists s, []. cbn [seq map for_each]. split; [reflexivity | ].
    destruct (skipn (2 * a) metrics) as [ | m0 [ | m1 rest]];
      [ | discriminate | discriminate].
    rewrite app_nil_r. repeat split. exact Hc.
  - cbn [seq map for_each].
    destruct (skipn (2 * a) metrics) as [ | m0 rest] eqn:Es;
      [discriminate | ].
    assert (H0 : nth_error metrics (2 * a) = Some m0).
    { rewrite <- hd_error_skipn, Es. reflexivity. }
    assert (Hlen : List.length metrics
                   = (2 * a + S (List.length rest))%nat).
    { pose proof (length_skipn (2 * a) metrics) as L. rewrite Es in L.
      cbn [List.length] in L.
      assert (2 * a < List.length metrics)%nat
        by (apply nth_error_Some; congruence).
      lia. }
    assert (D0 : exists d, getitem METRIC_DEFINITIONS m0 = ret d)
      by (apply Hdefs; eapply nth_error_In; exact H0).
    destruct (render_metric_safe category 0 m0 s D0 Hc)
      as [s1 [ws0 [R0 [P0 [S0 [Hh0 [O0 C0]]]]]]].
    unfold ui_bind at 1. unfold row at 1.
    unfold ui_bind at 1. unfold lift at 1, list_getitem at 1.
    rewrite H0. unfold ret at 1.
    unfold ui_bind at 1. rewrite R0. unfold ret at 1.
    destruct rest as [ | m1 rest].
    + replace (2 * a + 1 <? List.length metrics)%nat with false
        by (symmetry; apply Nat.ltb_ge; cbn in Hlen; lia).
      unfold ui_ret at 1. unfold ret at 1.
      assert (n = 0%nat) by (cbn in Hn; lia). subst n.
      exists s1, ws0. cbn [seq map for_each]. split; [reflexivity | ].
      split; [exact P0 | ]. repeat split; assumption.
    + replace (2 * a + 1 <? List.length metrics)%nat with true
        by (symmetry; apply Nat.ltb_lt; cbn in Hlen; lia).
      assert (H1 : nth_error metrics (2 * a + 1) = Some m1).
      { pose proof (nth_error_skipn (2 * a) metrics 1) as E.
        rewrite Es in E. cbn in E. symmetry. exact E. }
      assert (D1 : exists d, getitem METRIC_DEFINITIONS m1 = ret d)
        by (apply Hdefs; eapply nth_error_In; exact H1).
      destruct (render_metric_safe category 1 m1 s1 D1 C0)
        as [s2 [ws1 [R1 [P1 [S1 [Hh1 [O1 C1]]]]]]].
      unfold ui_bind at 1. unfold lift at 1, list_getitem at 1.
      rewrite H1. unfold ret at 1. rewrite R1. unfold ret at 1.
      assert (Es' : skipn (2 * S a) metrics = rest).
      { replace (2 * S a)%nat with (2 + 2 * a)%nat by lia.
        rewrite <- skipn_skipn, Es. reflexivity. }
      destruct (IH (S a) s2 C1) as [s3 [ws [R [P [Sh [Hh [O C]]]]]]].
      { rewrite Es'. cbn [List.length] in Hn.
        replace (S (S (List.length rest)) + 1)%nat
          with (S (S (List.length rest + 1))) in Hn by lia.
        cbn [Nat.div2] in Hn. lia. }
      exists s3, (ws0 ++ ws1 ++ ws). split; [exact R | ].
      rewrite Es' in Sh, O.
      split; [rewrite P, P1, P0, <- !app_assoc; reflexivity | ].
      rewrite !subheaders_app, !headers_app, !outcomes_app.
      rewrite S0, S1, Sh, Hh0, Hh1, Hh, O0, O1, O.
      repeat split. exact C.
Qed.

Lemma in_columns_names (col : nat) (metrics : list string) :
  map snd (in_columns col metrics) = metrics.
Proof.
  revert col. induction metrics as [ | m r IH]; intros col; [reflexivity | ].
  cbn. f_equal. apply IH.
Qed.

Lemma render_category_safe (category : string) (metrics : list string)
    (s : Session) :
  Forall (fun m => exists d, getitem METRIC_DEFINITIONS m = ret d) metrics ->
  cache_safe (cache s) ->
  exists s' ws,
    render_category W float_of_str format_2f category metrics days s
    = (ret tt, s')
    /\ page s' = page s ++ Header category category :: ws
    /\ subheaders ws = in_columns 0 metrics
    /\ headers ws = []
    /\ outcomes ws = List.length metrics
    /\ cache_safe (cache s').
Proof.
  intros Hdefs Hc.
  destruct (rows_from category metrics Hdefs
              (Nat.div2 (List.length metrics + 1)) 0
              {| cache := cache s; page := page s ++ [Header category category] |}
              Hc eq_refl) as [s' [ws [R [P [Sh [Hh [O C]]]]]]].
  exists s', ws. cbn [Nat.mul skipn page] in *.
  split; [exact R | ].
  split; [rewrite P, <- app_assoc; reflexivity | ].
  repeat split; assumption.
Qed.

(** X18: in a tab whose metrics all have a definition, with no fetched
    level series that divides by zero, the loop over the rows completes
    without [IndexError] for lists of even and of odd length, and shows the
    header and then every metric of the list exactly once, in the order of
    the list, in columns 0 and 1 in turn, each with a chart or an error
    box. *)
Theorem render_category_shows_every_metric (category : string)
    (metrics : list string) (s : Session) :
  Forall (fun m => exists d, getitem METRIC_DEFINITIONS m = ret d) metrics ->
  cache_safe (cache s) ->
  exists s' ws,
    render_category W float_of_str format_2f category metrics days s
    = (ret tt, s')
    /\ page s' = page s ++ Header category category :: ws
    /\ subheaders ws = in_columns 0 metrics
    /\ map snd (subheaders ws) = metrics
    /\ headers ws = []
    /\ outcomes ws = List.length metrics.
Proof.
  intros Hdefs Hc.
  destruct (render_category_safe category metrics s Hdefs Hc)
    as [s' [ws [R [P [Sh [Hh [O _]]]]]]].
  exists s', ws. repeat (split; [assumption | ]).
  split; [ | split; assumption].
  rewrite Sh. apply in_columns_names.
Qed.

End PageRuns.

Section PageRun.

Variable W : World.
Variable float_of_str : string -> option float.
Variable format_2f : float -> string.
Variable days : Z.

Hypothesis world_is_safe : world_safe W days.

Lemma tabs_from (categories : dict (list string)) :
  Forall (fun c =>
            Forall (fun m => exists d, getitem METRIC_DEFINITIONS m = ret d)
                   (snd c)) categories ->
  forall s : Session,
    cache_safe (cache s) ->
    exists s' ws,
      for_each categories
        (fun c => render_category W float_of_str format_2f
                    (fst c) (snd c) days) s
      = (ret tt, s')
      /\ page s' = page s ++ ws
      /\ headers ws = map fst categories
      /\ subheaders ws = flat_map (fun c => in_columns 0 (snd c)) categories
      /\ outcomes ws = List.length (List.concat (map snd categories))
      /\ cache_safe (cache s').
Proof.
  induction 1 as [ | [category metrics] rest Hm _ IH]; intros s Hc.
  - exists s, []. cbn. rewrite app_nil_r. repeat split. exact Hc.
  - cbn [fst snd] in Hm.
    destruct (render_category_safe W float_of_str format_2f
                days world_is_safe category metrics s Hm Hc)
      as [s1 [ws1 [R1 [P1 [S1 [H1 [O1 C1]]]]]]].
    destruct (IH s1 C1) as [s2 [ws2 [R2 [P2 [H2 [S2 [O2 C2]]]]]]].
    exists s2, (Header category category :: ws1 ++ ws2).
    split.
    + cbn [for_each fst snd].
      rewrite (ui_bind_ok _ _ _ _ _ R1). exact R2.
    + split; [rewrite P2, P1, <- app_assoc; reflexivity | ].
      cbn [map fst snd flat_map List.concat].
      change (Header category category :: ws1 ++ ws2)
        with ([Header category category] ++ ws1 ++ ws2).
      rewrite !headers_app, !subheaders_app, !outcomes_app.
      rewrite H1, H2, S1, S2, O1, O2, length_app.
      repeat split. exact C2.
Qed.

End PageRun.

Lemma catalog_has_definitions :
  Forall (fun c =>
            Forall (fun m => exists d, getitem METRIC_DEFINITIONS m = ret d)
                   (snd c)) get_categories.
Proof.
  unfold get_categories.
  repeat (constructor; [cbn [snd]; repeat (constructor; [eexists; reflexivity | ]); constructor | ]).
  constructor.
Qed.

(** With both providers down every metric resolves to two absent series. *)
Lemma world_down_absent (metric_name : string) (days : Z) :
  get_real_data world_down metric_name days = ret (None, None).
Proof.
  assert (D : dispatch world_down metric_name days = ret None).
  { unfold dispatch.
    repeat match goal with
           | |- context [if String.eqb ?a ?b then _ else _] =>
               destruct (String.eqb a b)
           end; reflexivity. }
  rewrite (get_real_data_eq _ _ _ _ D). reflexivity.
Qed.

Lemma world_down_safe (days : Z) : world_safe world_down days.
Proof.
  intros metric_name r. rewrite world_down_absent. intros [= <-]. exact I.
Qed.

Lemma render_category_shows_every_metric_witness :
  exists s' ws,
    render_category world_down (fun _ => None) format_stub "Interest Rate"
      [ "Key Interest Rates"; "Credit Spread"; "VIX Index" ] 730
      {| cache := []; page := [] |}
    = (ret tt, s')
    /\ page s' = [] ++ Header "Interest Rate" "Interest Rate" :: ws
    /\ subheaders ws
       = [ (0%nat, "Key Interest Rates"); (1%nat, "Credit Spread");
           (0%nat, "VIX Index") ]
    /\ map snd (subheaders ws)
       = [ "Key Interest Rates"; "Credit Spread"; "VIX Index" ]
    /\ headers ws = []
    /\ outcomes ws = 3%nat.
Proof.
  apply (render_category_shows_every_metric world_down (fun _ => None)
           format_stub 730 (world_down_safe 730) "Interest Rate"
           [ "Key Interest Rates"; "Credit Spread"; "VIX Index" ]
           {| cache := []; page := [] |}).
  - repeat (constructor; [eexists; reflexivity | ]). constructor.
  - constructor.
Defined.

(** X19: for an option of the selector, when no level series that is
    fetched or still cached divides by zero, the run completes: the page has
    the tab bar with the four categories, their four headers in order, and
    the 23 metrics of the catalog, each once and in catalog order, each with
    a chart or an error box.  With the refresh button pressed the state of
    the old cache does not matter. *)
Theorem run_script_shows_catalog (W : World)
    (float_of_str : string -> option float) (format_2f : float -> string)
    (time_range : string) (refresh : bool) (c : Cache) (days : Z) :
  getitem days_map time_range = ret days ->
  world_safe W days ->
  refresh = true \/ cache_safe c ->
  exists s' ws,
    run_script W float_of_str format_2f time_range refresh
      {| cache := c; page := [] |}
    = (ret tt, s')
    /\ page s' = Tabs ["Consumption"; "Supply"; "Interest Rate"; "Market"] :: ws
    /\ headers ws = ["Consumption"; "Supply"; "Interest Rate"; "Market"]
    /\ map snd (subheaders ws) = List.concat (map snd get_categories)
    /\ outcomes ws = 23%nat.
Proof.
  intros Hdays HW Hc.
  assert (Hc' : cache_safe (if refresh then [] else c)).
  { destruct refresh; [constructor | ].
    destruct Hc as [Hr | Hc]; [discriminate | exact Hc]. }
  destruct (tabs_from W float_of_str format_2f days HW get_categories
              catalog_has_definitions
              {| cache := if refresh then [] else c;
                 page := [Tabs (map fst get_categories)] |} Hc')
    as [s' [ws [R [P [H [S [O _]]]]]]].
  exists s', ws. split.
  - unfold run_script, ui_bind at 1, lift. rewrite Hdays. unfold ret at 1.
    destruct refresh; exact R.
  - split; [exact P | ]. split; [exact H | ]. split; [ | exact O].
    rewrite S. unfold get_categories. cbn [flat_map map snd List.concat].
    rewrite !map_app, !in_columns_names. reflexivity.
Qed.

Lemma run_script_shows_catalog_witness :
  exists s' ws,
    run_script world_down (fun _ => None) format_stub "1 Year" true
      {| cache := [ (("VIX Index", 365),
                     {| stored_at := t_now;
                        cached_value := (Some [ (t_2024, 0%float) ], None) |}) ];
         page := [] |}
    = (ret tt, s')
    /\ page s' = Tabs ["Consumption"; "Supply"; "Interest Rate"; "Market"] :: ws
    /\ headers ws = ["Consumption"; "Supply"; "Interest Rate"; "Market"]
    /\ map snd (subheaders ws) = List.concat (map snd get_categories)
    /\ outcomes ws = 23%nat.
Proof.
  apply (run_script_shows_catalog world_down (fun _ => None) format_stub
           "1 Year" true _ 365).
  - reflexivity.
  - apply world_down_safe.
  - left. reflexivity.
Defined.

(** ** The dates of the growth series *)

Lemma index_pct_change (periods : nat) (s : TimeSeries) :
  index (pct_change periods s) = index s.
Proof.
  apply nth_error_ext. intros k. unfold index.
  rewrite !nth_error_map, nth_error_pct_change.
  pose proof (ffill_from_index None s) as E. unfold index in E.
  assert (Ek : option_map fst (nth_error (fillna_ffill s) k)
               = option_map fst (nth_error s k)).
  { rewrite <- !nth_error_map. unfold fillna_ffill. rewrite E. reflexivity. }
  destruct (nth_error (fillna_ffill s) k) as [[t x] | ]; exact Ek.
Qed.

Lemma index_series_scale (c : float) (s : TimeSeries) :
  index (series_scale c s) = index s.
Proof. unfold index, series_scale. rewrite map_map. reflexivity. Qed.

Lemma increasing_first_le_last (t0 : Timestamp) (l : list Timestamp) :
  increasing (t0 :: l) = true -> t0 <= last (t0 :: l) t0.
Proof.
  cbn [increasing]. intros H. apply increasing_from_lt in H.
  rewrite last_cons_default.
  destruct (last_default_or_In l t0) as [-> | I]; [lia | ].
  rewrite Forall_forall in H. specialize (H _ I).
  unfold Timestamp in *. lia.
Qed.

(** X20: for a series with increasing dates [calculate_yoy_growth] returns a
    growth series with one point for every calendar day from the first to
    the last date of the series, whatever the spacing of the series itself:
    its dates are the daily range, and their number is the whole number of
    days between the two dates plus one. *)
Theorem calculate_yoy_growth_daily (t0 : Timestamp) (v0 : float)
    (r : TimeSeries) :
  let data := (t0, v0) :: r in
  increasing (index data) = true ->
  exists growth,
    calculate_yoy_growth data = ret (Some growth)
    /\ index growth = date_range t0 (last (index data) t0)
    /\ len growth = (last (index data) t0 - t0) / DAY + 1.
Proof.
  intros data Hinc.
  exists (series_scale 100%float (pct_change 365 (daily_grid data))).
  assert (I : index (series_scale 100%float (pct_change 365 (daily_grid data)))
              = date_range t0 (last (index data) t0)).
  { rewrite index_series_scale, index_pct_change. apply daily_grid_index. }
  split; [ | split].
  - rewrite calculate_yoy_growth_eq. unfold yoy_or_none.
    rewrite (asfreq_D_ffill_increasing _ Hinc). reflexivity.
  - exact I.
  - unfold len. rewrite <- (length_map fst).
    change (map fst ?s) with (index s). rewrite I.
    unfold date_range. rewrite length_map, length_seq.
    pose proof (increasing_first_le_last t0 (index r) Hinc) as Hle.
    pose proof DAY_pos.
    assert (0 <= (last (index data) t0 - t0) / DAY)
      by (apply Z.div_pos; unfold data, index, Timestamp in *; cbn [map fst] in *; lia).
    lia.
Qed.

Lemma calculate_yoy_growth_daily_witness :
  exists growth,
    calculate_yoy_growth [ (t_2024, 6%float); (t_2024 + 31 * DAY, 7%float) ]
    = ret (Some growth)
    /\ index growth = date_range t_2024 (t_2024 + 31 * DAY)
    /\ len growth = 32.
Proof.
  apply (calculate_yoy_growth_daily t_2024 6%float
           [ (t_2024 + 31 * DAY, 7%float) ]).
  reflexivity.
Defined.

Lemma index_trim (days : Z) (a b : TimeSeries) :
  index a = index b -> index (trim days a) = index (trim days b).
Proof.
  intros H.
  assert (L : List.length a = List.length b).
  { rewrite <- (length_map fst a), <- (length_map fst b).
    change (map fst ?s) with (index s). rewrite H. reflexivity. }
  unfold trim, iloc_from, len, index. rewrite L.
  destruct (Z.of_nat (List.length b) >? days);
    rewrite <- ?skipn_map; unfold index in H; rewrite H; reflexivity.
Qed.

Lemma increasing_from_days (t0 : Timestamp) (a n : nat) :
  increasing_from (t0 + Z.of_nat a * DAY)
    (map (fun k => t0 + Z.of_nat k * DAY) (seq (S a) n)) = true.
Proof.
  revert a. induction n as [ | n IH]; intros a; [reflexivity | ].
  cbn [seq map increasing_from]. rewrite IH, andb_true_r.
  apply Z.ltb_lt. pose proof DAY_pos. nia.
Qed.

(** X21: when the fetched series has a point on every consecutive day (as a
    daily FRED series has), the level and the growth series returned carry
    the same dates: the resampling adds no day and each is cut to the same
    last days. *)
Theorem get_real_data_daily_same_dates (W : World) (metric_name : string)
    (days : Z) (data : TimeSeries) (t0 : Timestamp) :
  dispatch W metric_name days = ret (Some data) ->
  data <> [] ->
  index data
  = map (fun k => t0 + Z.of_nat k * DAY) (seq 0 (List.length data)) ->
  exists level growth,
    get_real_data W metric_name days = ret (Some level, Some growth)
    /\ index growth = index level.
Proof.
  intros Hd Hne Hidx.
  destruct data as [ | [u v0] r]; [contradiction | ].
  assert (u = t0).
  { cbn in Hidx. injection Hidx as -> _. unfold Timestamp in *. lia. }
  subst u.
  set (data := (t0, v0) :: r) in *.
  assert (Hinc : increasing (index data) = true).
  { rewrite Hidx. unfold data. cbn [List.length seq map increasing].
    apply increasing_from_days. }
  assert (Hlast : last (index data) t0
                  = t0 + Z.of_nat (List.length r) * DAY).
  { rewrite Hidx. unfold data. cbn [List.length].
    rewrite seq_S, map_app. cbn [map]. rewrite last_last. reflexivity. }
  assert (Hgrid : date_range t0 (last (index data) t0) = index data).
  { rewrite Hlast, Hidx. unfold date_range, data. cbn [List.length].
    replace (t0 + Z.of_nat (List.length r) * DAY - t0)
      with (Z.of_nat (List.length r) * DAY) by (unfold Timestamp; lia).
    rewrite Z.div_mul by (unfold DAY; lia).
    replace (Z.to_nat (Z.of_nat (List.length r) + 1))
      with (S (List.length r)) by lia.
    reflexivity. }
  rewrite (get_real_data_eq _ _ _ _ Hd).
  unfold yoy_or_none. rewrite (asfreq_D_ffill_increasing _ Hinc).
  do 2 eexists. split; [reflexivity | ].
  apply index_trim.
  rewrite index_series_scale, index_pct_change.
  unfold data at 1. rewrite daily_grid_index. exact Hgrid.
Qed.

Lemma get_real_data_daily_same_dates_witness :
  exists level growth,
    get_real_data world_daily "Key Interest Rates" 10
    = ret (Some level, Some growth)
    /\ index growth = index level.
Proof.
  apply (get_real_data_daily_same_dates world_daily "Key Interest Rates" 10
           (daily_constant t_2024 376 2%float) t_2024).
  - reflexivity.
  - discriminate.
  - vm_compute. reflexivity.
Defined.
